(** * Backup orchestrator (terraform/lambda/backup_orchestrator.py)

    A shallow embedding of the Lambda entry point [handler], of its four
    backup steps and of [check_backup_health], followed by the properties
    of the orchestration that hold on this code.

    Conventions of the embedding:
    - Python dictionaries that are serialised keep their insertion order:
      they are association lists from keys to JSON values.
    - [backup_results], whose keys are fixed by [handler], is a record; the
      two keys that are added late ([error], [overall_status]) are options.
    - The AWS clients are external: a [World] gives, for every request, the
      answer of the client (a value or a raised exception).  [datetime.now]
      is read from a [Clock], one reading per call.
    - The text produced by [json.dumps] is kept as the value it encodes
      together with the indentation that was asked for.
    - What the AWS clients raise are instances of [Exception], identified
      by [str(e)]; the steps of the module catch them all.  [handler] is
      given twice: [handler_with], over steps that keep to their type, and
      [handler_bound], over steps bound to anything, which may return any
      object and raise exceptions that [except Exception] lets through.
    - Logging has no effect on the result and is left out. *)

From Stdlib Require Import String Ascii List ZArith Bool Lia Permutation.
Import ListNotations.

Set Warnings "-register-all".

Open Scope list_scope.
Open Scope string_scope.

(* ------------------------------------------------------------------ *)
(** ** Python values *)

Module Py.

Inductive json : Type :=
| JNone
| JInt (n : Z)
| JStr (s : string)
| JList (items : list json)
| JDict (items : list (string * json)).

(** A [dict] with string keys, in insertion order. *)
Definition dict : Type := list (string * json).

(** [d.get(key)] *)
Fixpoint dict_get (key : string) (d : dict) : option json :=
  match d with
  | [] => None
  | (k, v) :: rest => if String.eqb k key then Some v else dict_get key rest
  end.

(** [d.get(key) == text], for a string literal [text]: a missing key gives
    [None], and a value that is not a string differs from every string. *)
Definition get_equals (d : dict) (key text : string) : bool :=
  match dict_get key d with
  | Some (JStr s) => String.eqb s text
  | _ => false
  end.

(** [needle in hay], on strings. *)
Fixpoint contains (needle hay : string) : bool :=
  String.prefix needle hay ||
  match hay with
  | EmptyString => false
  | String _ rest => contains needle rest
  end.

(** [json.dumps(value)] and [json.dumps(value, indent=n)]. *)
Inductive json_text : Type :=
| Dumps (indent : option nat) (value : json).

Definition loads (t : json_text) : json :=
  match t with Dumps _ v => v end.

(** An instance of [Exception], as the AWS clients raise; [str] is
    Python's [str(e)].  Exceptions of other classes, which
    [except Exception] does not catch, come with [raisable] below. *)
Inductive exn : Type :=
| Exception (message : string).

Definition str (e : exn) : string :=
  match e with Exception m => m end.

Inductive outcome (A : Type) : Type :=
| Return (a : A)
| Raise (e : exn).

Arguments Return {A} a.
Arguments Raise {A} e.

(** Computations over a store [S] that may raise; the store survives a
    raise, as Python's heap does. *)
Definition M (S A : Type) : Type := S -> outcome A * S.

Definition ret {S A : Type} (a : A) : M S A :=
  fun s => (Return a, s).

Definition bind {S A B : Type} (m : M S A) (k : A -> M S B) : M S B :=
  fun s =>
    match m s with
    | (Return a, s') => k a s'
    | (Raise e, s') => (Raise e, s')
    end.

Definition raise {S A : Type} (e : exn) : M S A :=
  fun s => (Raise e, s).

(** [try: body  except Exception as e: handle e], where [body] raises
    instances of [Exception] only. *)
Definition try_except {S A : Type} (body : M S A) (handle : exn -> M S A)
  : M S A :=
  fun s =>
    match body s with
    | (Return a, s') => (Return a, s')
    | (Raise e, s') => handle e s'
    end.

Definition get {S : Type} : M S S :=
  fun s => (Return s, s).

Definition modify {S : Type} (f : S -> S) : M S unit :=
  fun s => (Return tt, f s).

End Py.

Import Py.

Declare Scope py_scope.
Delimit Scope py_scope with py.
Notation "x <- m ;; k" := (bind m (fun x => k))
  (at level 61, m at next level, right associativity) : py_scope.
Notation "m ;; k" := (bind m (fun _ => k))
  (at level 61, right associativity) : py_scope.
Open Scope py_scope.

(* ------------------------------------------------------------------ *)
(** ** Time stamps *)

Module Datetime.

(** A UTC instant, as [datetime.now(timezone.utc)] returns it. *)
Record datetime : Type := {
  year : nat;
  month : nat;
  day : nat;
  hour : nat;
  minute : nat;
  second : nat;
  microsecond : nat
}.

Definition digit (n : nat) : ascii := ascii_of_nat (48 + n mod 10).

(** The last [width] decimal digits of [n], zero padded; the fields of a
    valid [datetime] fit their widths. *)
Fixpoint zfill (width n : nat) : string :=
  match width with
  | O => ""
  | S w => zfill w (n / 10) ++ String (digit n) ""
  end.

(** [n] in decimal, without padding; [fuel] bounds the number of digits. *)
Fixpoint decimal_digits (fuel n : nat) : string :=
  match fuel with
  | O => ""
  | S f =>
      if Nat.ltb n 10 then String (digit n) ""
      else decimal_digits f (n / 10) ++ String (digit n) ""
  end.

Definition decimal (n : nat) : string := decimal_digits (S n) n.

(** [t.strftime('%Y%m%d-%H%M%S')], as the C library of Linux prints it,
    where the function runs: [%Y] is the year without padding (a year
    below 1000 has fewer than four digits), the other fields are padded
    to two digits. *)
Definition strftime (t : datetime) : string :=
  decimal (year t) ++ zfill 2 (month t) ++ zfill 2 (day t) ++ "-" ++
  zfill 2 (hour t) ++ zfill 2 (minute t) ++ zfill 2 (second t).

(** [t.isoformat()] for a UTC instant: the year is padded to four
    digits, and the fraction is printed only when it is not zero. *)
Definition isoformat (t : datetime) : string :=
  zfill 4 (year t) ++ "-" ++ zfill 2 (month t) ++ "-" ++ zfill 2 (day t) ++
  "T" ++ zfill 2 (hour t) ++ ":" ++ zfill 2 (minute t) ++ ":" ++
  zfill 2 (second t) ++
  (if Nat.eqb (microsecond t) 0 then "" else "." ++ zfill 6 (microsecond t)) ++
  "+00:00".

End Datetime.

Import Datetime.

(* ------------------------------------------------------------------ *)
(** ** Configuration and external collaborators *)

(** The three environment variables read when the module is loaded. *)
Record Env : Type := {
  CLUSTER_NAME : string;
  S3_BUCKET : string;
  ENVIRONMENT : string
}.

(** The keyword arguments of [s3_client.put_object]. *)
Record s3_put : Type := {
  Bucket : string;
  Key : string;
  Body : json_text;
  ContentType : string
}.

(** An entry of [describe_db_instances()['DBInstances']]; the retention
    period is read with [.get], so it may be missing. *)
Record DBInstance : Type := {
  DBInstanceIdentifier : string;
  BackupRetentionPeriod : option Z
}.

(** The answers of the AWS clients.
    - [describe_cluster name] is [cluster_info['cluster']['status']];
    - [describe_db_snapshots id] is [snapshots['DBSnapshots']] for the
      automated snapshots of [id]. *)
Record World : Type := {
  describe_cluster : string -> outcome string;
  describe_db_instances : outcome (list DBInstance);
  describe_db_snapshots : string -> outcome (list json);
  s3_put_object : s3_put -> outcome unit
}.

(** The readings of [datetime.now(timezone.utc)], one per call. *)
Record Clock : Type := {
  now_handler : datetime;
  now_kubernetes : datetime;
  now_application : datetime;
  now_metadata : datetime
}.

(** The requests sent to S3 so far, oldest first. *)
Definition S3Log : Type := list s3_put.

(* ------------------------------------------------------------------ *)
(** ** The report under construction *)

(** [backup_results]: the keys [timestamp], [environment], [cluster_name]
    and [backup_operations] are set when it is created; [error] and
    [overall_status] are absent until [handler] sets them. *)
Record BackupResults : Type := {
  timestamp : string;
  environment : string;
  cluster_name : string;
  backup_operations : list dict;
  error : option string;
  overall_status : option string
}.

Definition optional_key (key : string) (v : option string) : dict :=
  match v with
  | Some s => [(key, JStr s)]
  | None => []
  end.

(** The dictionary that [json.dumps] receives. *)
Definition results_json (r : BackupResults) : json :=
  JDict ([("timestamp", JStr (timestamp r));
          ("environment", JStr (environment r));
          ("cluster_name", JStr (cluster_name r));
          ("backup_operations", JList (map JDict (backup_operations r)))]
         ++ optional_key "error" (error r)
         ++ optional_key "overall_status" (overall_status r))%list.

(** [backup_results['backup_operations'].append(op)] *)
Definition append_operation (op : dict) (r : BackupResults) : BackupResults :=
  {| timestamp := timestamp r;
     environment := environment r;
     cluster_name := cluster_name r;
     backup_operations := (backup_operations r ++ [op])%list;
     error := error r;
     overall_status := overall_status r |}.

(** [backup_results['overall_status'] = status] *)
Definition set_overall_status (status : string) (r : BackupResults)
  : BackupResults :=
  {| timestamp := timestamp r;
     environment := environment r;
     cluster_name := cluster_name r;
     backup_operations := backup_operations r;
     error := error r;
     overall_status := Some status |}.

(** [backup_results['error'] = text] *)
Definition set_error (text : string) (r : BackupResults) : BackupResults :=
  {| timestamp := timestamp r;
     environment := environment r;
     cluster_name := cluster_name r;
     backup_operations := backup_operations r;
     error := Some text;
     overall_status := overall_status r |}.

(* ------------------------------------------------------------------ *)
(** ** Health evaluation *)

(** [check_backup_health(backup_results)]; the key [backup_operations] is
    always there, so the default of [.get] is not needed. *)
Definition check_backup_health (backup_results : BackupResults) : string :=
  let operations := backup_operations backup_results in
  match operations with
  | [] => "FAILED"
  | _ :: _ =>
      let failed_operations :=
        filter (fun op => get_equals op "status" "FAILED") operations in
      let warning_operations :=
        filter (fun op => get_equals op "status" "WARNING") operations in
      match failed_operations, warning_operations with
      | _ :: _, _ => "FAILED"
      | [], _ :: _ => "WARNING"
      | [], [] => "SUCCESS"
      end
  end.

(** The two tests of the comprehensions above. *)
Definition is_failed (op : dict) : bool := get_equals op "status" "FAILED".
Definition is_warning (op : dict) : bool := get_equals op "status" "WARNING".

(* ------------------------------------------------------------------ *)
(** ** The backup steps *)

Section Steps.

Variable env : Env.
Variable aws : World.
Variable clock : Clock.

(** [s3_client.put_object(...)]: the request is recorded, the answer is
    the client's. *)
Definition put_object (request : s3_put) : M S3Log unit :=
  fun log => (s3_put_object aws request, (log ++ [request])%list).

(** A call of a client that only reads. *)
Definition call {A : Type} (answer : outcome A) : M S3Log A :=
  fun log => (answer, log).

(** The dictionary every [except] block of a step returns. *)
Definition failed_operation (operation : string) (e : exn) : dict :=
  [("operation", JStr operation);
   ("status", JStr "FAILED");
   ("error", JStr (str e))].

(** The [try] block of [backup_kubernetes_resources]. *)
Definition backup_kubernetes_resources_try : M S3Log dict :=
  cluster_status <- call (describe_cluster aws (CLUSTER_NAME env)) ;;
  if negb (String.eqb cluster_status "ACTIVE") then
    ret [("operation", JStr "kubernetes_backup");
         ("status", JStr "SKIPPED");
         ("message", JStr ("Cluster status is " ++ cluster_status ++
                           ", skipping backup"))]
  else
    let backup_timestamp := strftime (now_kubernetes clock) in
    let backup_key :=
      "k8s-backups/" ++ ENVIRONMENT env ++ "/" ++ backup_timestamp ++
      "/cluster-backup.tar.gz" in
    let backup_metadata : dict :=
      [("cluster_name", JStr (CLUSTER_NAME env));
       ("backup_timestamp", JStr backup_timestamp);
       ("backup_type", JStr "full");
       ("namespaces",
        JList [JStr "agentscan"; JStr "kube-system"; JStr "monitoring"]);
       ("resources_backed_up",
        JList [JStr "deployments"; JStr "services"; JStr "configmaps";
               JStr "secrets"; JStr "persistentvolumeclaims";
               JStr "ingresses"])] in
    put_object
      {| Bucket := S3_BUCKET env;
         Key := "k8s-backups/" ++ ENVIRONMENT env ++ "/" ++
                backup_timestamp ++ "/metadata.json";
         Body := Dumps None (JDict backup_metadata);
         ContentType := "application/json" |} ;;
    ret [("operation", JStr "kubernetes_backup");
         ("status", JStr "SUCCESS");
         ("backup_location",
          JStr ("s3://" ++ S3_BUCKET env ++ "/" ++ backup_key));
         ("metadata", JDict backup_metadata)].

Definition backup_kubernetes_resources : M S3Log dict :=
  try_except backup_kubernetes_resources_try
    (fun e => ret (failed_operation "kubernetes_backup" e)).

(** [instance.get('BackupRetentionPeriod', 0)] *)
Definition retention (instance : DBInstance) : Z :=
  match BackupRetentionPeriod instance with
  | Some days => days
  | None => 0%Z
  end.

(** The body of the second loop of [verify_rds_backups], for one instance. *)
Definition instance_backup_status (instance : DBInstance) : M S3Log dict :=
  let instance_id := DBInstanceIdentifier instance in
  let backup_retention := retention instance in
  if (backup_retention >? 0)%Z then
    snapshots <- call (describe_db_snapshots aws instance_id) ;;
    let recent_snapshots := length snapshots in
    ret [("instance_id", JStr instance_id);
         ("backup_retention_days", JInt backup_retention);
         ("recent_snapshots", JInt (Z.of_nat recent_snapshots));
         ("status",
          JStr (if Nat.ltb 0 recent_snapshots then "HEALTHY" else "WARNING"))]
  else
    ret [("instance_id", JStr instance_id);
         ("backup_retention_days", JInt backup_retention);
         ("status", JStr "DISABLED")].

(** The second loop of [verify_rds_backups]: [backup_status] in the end. *)
Fixpoint collect_backup_status (instances : list DBInstance)
  : M S3Log (list dict) :=
  match instances with
  | [] => ret []
  | instance :: rest =>
      entry <- instance_backup_status instance ;;
      entries <- collect_backup_status rest ;;
      ret (entry :: entries)
  end.

(** [status['status'] in ['HEALTHY', 'WARNING']] *)
Definition healthy_or_warning (status : dict) : bool :=
  get_equals status "status" "HEALTHY" || get_equals status "status" "WARNING".

(** [ENVIRONMENT in instance['DBInstanceIdentifier']] *)
Definition is_agentscan_instance (instance : DBInstance) : bool :=
  contains (ENVIRONMENT env) (DBInstanceIdentifier instance).

(** The [try] block of [verify_rds_backups]. *)
Definition verify_rds_backups_try : M S3Log dict :=
  db_instances <- call (describe_db_instances aws) ;;
  let agentscan_instances := filter is_agentscan_instance db_instances in
  backup_status <- collect_backup_status agentscan_instances ;;
  let overall_rds_status :=
    if forallb healthy_or_warning backup_status
    then "SUCCESS" else "FAILED" in
  ret [("operation", JStr "rds_backup_verification");
       ("status", JStr overall_rds_status);
       ("instances", JList (map JDict backup_status))].

Definition verify_rds_backups : M S3Log dict :=
  try_except verify_rds_backups_try
    (fun e => ret (failed_operation "rds_backup_verification" e)).

Definition app_backup_items : list dict :=
  [ [("type", JStr "configuration");
     ("description", JStr "Application configuration files");
     ("size_mb", JInt 5);
     ("status", JStr "SUCCESS")];
    [("type", JStr "scan_results");
     ("description", JStr "Historical scan results and reports");
     ("size_mb", JInt 1024);
     ("status", JStr "SUCCESS")];
    [("type", JStr "ml_models");
     ("description", JStr "Machine learning model artifacts");
     ("size_mb", JInt 256);
     ("status", JStr "SUCCESS")];
    [("type", JStr "audit_logs");
     ("description", JStr "Security and audit logs");
     ("size_mb", JInt 128);
     ("status", JStr "SUCCESS")] ].

(** [item['size_mb']], for the items above. *)
Definition size_mb (item : dict) : Z :=
  match dict_get "size_mb" item with
  | Some (JInt n) => n
  | _ => 0%Z
  end.

(** The [try] block of [backup_application_data]. *)
Definition backup_application_data_try : M S3Log dict :=
  let backup_timestamp := strftime (now_application clock) in
  let backup_manifest : dict :=
    [("backup_timestamp", JStr backup_timestamp);
     ("environment", JStr (ENVIRONMENT env));
     ("backup_items", JList (map JDict app_backup_items));
     ("total_size_mb",
      JInt (fold_left Z.add (map size_mb app_backup_items) 0%Z))] in
  let manifest_key :=
    "app-backups/" ++ ENVIRONMENT env ++ "/" ++ backup_timestamp ++
    "/manifest.json" in
  put_object
    {| Bucket := S3_BUCKET env;
       Key := manifest_key;
       Body := Dumps None (JDict backup_manifest);
       ContentType := "application/json" |} ;;
  ret [("operation", JStr "application_data_backup");
       ("status", JStr "SUCCESS");
       ("backup_location",
        JStr ("s3://" ++ S3_BUCKET env ++ "/app-backups/" ++
              ENVIRONMENT env ++ "/" ++ backup_timestamp ++ "/"));
       ("manifest", JDict backup_manifest)].

Definition backup_application_data : M S3Log dict :=
  try_except backup_application_data_try
    (fun e => ret (failed_operation "application_data_backup" e)).

(** The request [upload_backup_metadata] sends to S3. *)
Definition metadata_request (backup_results : BackupResults) : s3_put :=
  let timestamp := strftime (now_metadata clock) in
  let metadata_key :=
    "backup-reports/" ++ ENVIRONMENT env ++ "/" ++ timestamp ++
    "/backup-report.json" in
  {| Bucket := S3_BUCKET env;
     Key := metadata_key;
     Body := Dumps (Some 2) (results_json backup_results);
     ContentType := "application/json" |}.

(** The [try] block of [upload_backup_metadata]. *)
Definition upload_backup_metadata_try (backup_results : BackupResults)
  : M S3Log dict :=
  let request := metadata_request backup_results in
  put_object request ;;
  ret [("operation", JStr "metadata_upload");
       ("status", JStr "SUCCESS");
       ("location",
        JStr ("s3://" ++ S3_BUCKET env ++ "/" ++ Key request))].

Definition upload_backup_metadata (backup_results : BackupResults)
  : M S3Log dict :=
  try_except (upload_backup_metadata_try backup_results)
    (fun e => ret (failed_operation "metadata_upload" e)).

End Steps.

(* ------------------------------------------------------------------ *)
(** ** Comparing reports up to some keys *)

Definition mem (key : string) (keys : list string) : bool :=
  existsb (String.eqb key) keys.

(** [v] without the entries of its dictionaries, at any depth, whose key
    is in [keys]. *)
Fixpoint erase_keys (keys : list string) (v : json) : json :=
  match v with
  | JList items => JList (map (erase_keys keys) items)
  | JDict items =>
      JDict ((fix entries (l : list (string * json)) : list (string * json) :=
                match l with
                | [] => []
                | (k, x) :: rest =>
                    if mem k keys then entries rest
                    else (k, erase_keys keys x) :: entries rest
                end) items)
  | _ => v
  end.

(** The keys whose value is a time stamp. *)
Definition timestamp_fields : list string :=
  ["timestamp"; "backup_timestamp"].

(** The keys whose value is computed from a reading of the clock: the
    time stamps, and the S3 locations that embed one. *)
Definition clock_fields : list string :=
  ["timestamp"; "backup_timestamp"; "backup_location"; "location"].

(* ------------------------------------------------------------------ *)
(** ** The entry point *)

(** The value [handler] returns to the Lambda runtime. *)
Record Response : Type := {
  statusCode : Z;
  body : json_text
}.

(** What a run of [handler] works on: its local [backup_results], which
    it mutates in place, and the requests sent to S3. *)
Record Frame : Type := {
  backup_results : BackupResults;
  s3 : S3Log
}.

Definition on_results (f : BackupResults -> BackupResults) : M Frame unit :=
  modify (fun fr => {| backup_results := f (backup_results fr); s3 := s3 fr |}).

(** A call of a step function: it sees S3, not the caller's locals. *)
Definition run_step {A : Type} (step : M S3Log A) : M Frame A :=
  fun fr =>
    let (answer, log) := step (s3 fr) in
    (answer, {| backup_results := backup_results fr; s3 := log |}).

Section Handler.

Variable env : Env.
Variable clock : Clock.

(** The four step functions are module globals, looked up at each call.
    [handler_with] is the body of [handler] over steps that keep to the
    type of a step: each returns a dictionary of JSON values or raises an
    instance of [Exception].  The steps of the module are such, and so is
    a stub that returns a fixed result.  For steps bound to anything, see
    [handler_bound]. *)
Variables k8s rds app : M S3Log dict.
Variable upload : BackupResults -> M S3Log dict.

Definition new_backup_results : BackupResults :=
  {| timestamp := isoformat (now_handler clock);
     environment := ENVIRONMENT env;
     cluster_name := CLUSTER_NAME env;
     backup_operations := [];
     error := None;
     overall_status := None |}.

(** The [try] block of [handler]. *)
Definition handler_try : M Frame Response :=
  k8s_backup_result <- run_step k8s ;;
  on_results (append_operation k8s_backup_result) ;;
  rds_backup_result <- run_step rds ;;
  on_results (append_operation rds_backup_result) ;;
  app_data_result <- run_step app ;;
  on_results (append_operation app_data_result) ;;
  fr <- get ;;
  metadata_result <- run_step (upload (backup_results fr)) ;;
  on_results (append_operation metadata_result) ;;
  fr <- get ;;
  let overall_status := check_backup_health (backup_results fr) in
  on_results (set_overall_status overall_status) ;;
  fr <- get ;;
  ret {| statusCode := 200;
         body := Dumps None (results_json (backup_results fr)) |}.

(** The [except Exception as e] block of [handler]. *)
Definition handler_except (e : exn) : M Frame Response :=
  on_results (set_error (str e)) ;;
  on_results (set_overall_status "FAILED") ;;
  fr <- get ;;
  ret {| statusCode := 500;
         body := Dumps None (results_json (backup_results fr)) |}.

Definition handler_with (event context : json) : M S3Log Response :=
  fun log =>
    let (answer, fr) :=
      try_except handler_try handler_except
        {| backup_results := new_backup_results; s3 := log |} in
    (answer, s3 fr).

End Handler.

(** [handler(event, context)], with the steps of this module. *)
Definition handler (env : Env) (aws : World) (clock : Clock)
  (event context : json) : M S3Log Response :=
  handler_with env clock
    (backup_kubernetes_resources env aws clock)
    (verify_rds_backups env aws)
    (backup_application_data env aws clock)
    (upload_backup_metadata env aws clock)
    event context.

(** [backup_results] once the results [operations] have been appended,
    in this order. *)
Definition operations_so_far (env : Env) (clock : Clock)
  (operations : list dict) : BackupResults :=
  fold_left (fun r op => append_operation op r) operations
            (new_backup_results env clock).

(** [backup_results] at the [return] of the [try] block. *)
Definition completed (env : Env) (clock : Clock) (operations : list dict)
  : BackupResults :=
  let r := operations_so_far env clock operations in
  set_overall_status (check_backup_health r) r.

(** [backup_results] at the [return] of the [except] block. *)
Definition aborted (env : Env) (clock : Clock) (operations : list dict)
  (e : exn) : BackupResults :=
  set_overall_status "FAILED"
    (set_error (str e) (operations_so_far env clock operations)).

Section Runs.

Variable env : Env.
Variable clock : Clock.
Variables k8s rds app : M S3Log dict.
Variable upload : BackupResults -> M S3Log dict.
Variable log : S3Log.

(** The four steps return, one after the other, from the log [log]. *)
Inductive completes : list dict -> S3Log -> Prop :=
| completes_all (a b c d : dict) (l1 l2 l3 l4 : S3Log) :
    k8s log = (Return a, l1) ->
    rds l1 = (Return b, l2) ->
    app l2 = (Return c, l3) ->
    upload (operations_so_far env clock [a; b; c]) l3 = (Return d, l4) ->
    completes [a; b; c; d] l4.

(** A step lets the exception [e] out, after the steps before it have
    returned the given results. *)
Inductive escapes : exn -> list dict -> S3Log -> Prop :=
| escapes_kubernetes (e : exn) (l : S3Log) :
    k8s log = (Raise e, l) ->
    escapes e [] l
| escapes_rds (a : dict) (e : exn) (l1 l : S3Log) :
    k8s log = (Return a, l1) ->
    rds l1 = (Raise e, l) ->
    escapes e [a] l
| escapes_application (a b : dict) (e : exn) (l1 l2 l : S3Log) :
    k8s log = (Return a, l1) ->
    rds l1 = (Return b, l2) ->
    app l2 = (Raise e, l) ->
    escapes e [a; b] l
| escapes_upload (a b c : dict) (e : exn) (l1 l2 l3 l : S3Log) :
    k8s log = (Return a, l1) ->
    rds l1 = (Return b, l2) ->
    app l2 = (Return c, l3) ->
    upload (operations_so_far env clock [a; b; c]) l3 = (Raise e, l) ->
    escapes e [a; b; c] l.

End Runs.

(** [step], whose [try] block is [step_try], keeps a failure to itself:
    it always returns a result that bears its name, and a raise of its
    [try] block becomes the FAILED result built from the exception. *)
Definition isolates (step_try step : M S3Log dict) (operation : string)
  : Prop :=
  forall log,
    (exists result log',
        step log = (Return result, log') /\
        dict_get "operation" result = Some (JStr operation)) /\
    (forall e log',
        step_try log = (Raise e, log') ->
        step log = (Return (failed_operation operation e), log')).

(** A computation that sends nothing to S3 and whose answer does not
    depend on what was sent before. *)
Definition readonly {A : Type} (m : M S3Log A) : Prop :=
  exists answer, forall log, m log = (answer, log).

(** A step function stubbed to a fixed result, or to a fixed raise; for
    the metadata step, whatever report it is given. *)
Definition stubbed (step : M S3Log dict) : Prop := readonly step.

Definition stubbed_upload (upload : BackupResults -> M S3Log dict) : Prop :=
  exists answer, forall r log, upload r log = (answer, log).

(** [r] with another value under [timestamp]. *)
Definition with_timestamp (t : string) (r : BackupResults) : BackupResults :=
  {| timestamp := t;
     environment := environment r;
     cluster_name := cluster_name r;
     backup_operations := backup_operations r;
     error := error r;
     overall_status := overall_status r |}.

(** An S3 client stubbed to give one fixed answer. *)
Definition fixed_answer (aws : World) : Prop :=
  forall request request',
    s3_put_object aws request = s3_put_object aws request'.

(** Two step results that agree on every key not computed from the clock,
    and on their status. *)
Definition similar (x y : dict) : Prop :=
  erase_keys clock_fields (JDict x) = erase_keys clock_fields (JDict y) /\
  forall text, get_equals x "status" text = get_equals y "status" text.

(** The report a response carries in its body. *)
Definition report_of (r : Response) : json := loads (body r).

(** A key of the report in a response, [None] when it is absent. *)
Definition report_field (key : string) (r : Response) : option json :=
  match report_of r with
  | JDict d => dict_get key d
  | _ => None
  end.

(** The report handed to S3 in a request, as [report_field] reads it. *)
Definition persisted_field (key : string) (request : s3_put) : option json :=
  match loads (Body request) with
  | JDict d => dict_get key d
  | _ => None
  end.

(* ------------------------------------------------------------------ *)
(** ** The entry point over any binding of its steps *)

(** [handler_with] takes its steps at their type: each returns a
    dictionary of JSON values or raises an instance of [Exception], as
    the steps of the module do.  Python holds a rebound step to neither:
    it may return any object and raise any exception.  [handler_bound] is
    the body of [handler] over such steps, with the two places of
    [handler] that can then raise: [op.get] in [check_backup_health] and
    [json.dumps]. *)

(** What a call may raise: an instance of [Exception], which
    [except Exception] catches, or an exception of another class, such as
    [SystemExit] or [KeyboardInterrupt], which it lets through. *)
Inductive raisable : Type :=
| AnException (e : exn)
| BaseOnly (class_name : string).

(** What a step may return, as far as [handler] looks at it, which it
    does through [op.get] and [json.dumps]: a value [json.dumps] accepts;
    a dictionary it refuses, of which [entries] are the entries with JSON
    values; an object that is not a dictionary and that it refuses, such
    as a set, of which [type_name] is the name of the type.  [refusal] is
    the exception of [json.dumps], a [TypeError] or a [ValueError]. *)
Inductive pyvalue : Type :=
| Serialisable (v : json)
| OpaqueDict (entries : dict) (refusal : exn)
| Opaque (type_name : string) (refusal : exn).

Inductive result (A : Type) : Type :=
| Ok (a : A)
| Throw (x : raisable).

Arguments Ok {A} a.
Arguments Throw {A} x.

Definition P (S A : Type) : Type := S -> result A * S.

Definition p_ret {S A : Type} (a : A) : P S A :=
  fun s => (Ok a, s).

Definition p_bind {S A B : Type} (m : P S A) (k : A -> P S B) : P S B :=
  fun s =>
    match m s with
    | (Ok a, s') => k a s'
    | (Throw x, s') => (Throw x, s')
    end.

(** The value or the raise of an expression that leaves the store alone. *)
Definition p_eval {S A : Type} (r : result A) : P S A :=
  fun s => (r, s).

Definition p_get {S : Type} : P S S :=
  fun s => (Ok s, s).

Definition p_modify {S : Type} (f : S -> S) : P S unit :=
  fun s => (Ok tt, f s).

(** [try: body  except Exception as e: handle e]: an exception outside
    [Exception] goes through. *)
Definition try_except_Exception {S A : Type} (body : P S A)
  (handle : exn -> P S A) : P S A :=
  fun s =>
    match body s with
    | (Ok a, s') => (Ok a, s')
    | (Throw (AnException e), s') => handle e s'
    | (Throw (BaseOnly c), s') => (Throw (BaseOnly c), s')
    end.

Notation "x <~ m ;; k" := (p_bind m (fun x => k))
  (at level 61, m at next level, right associativity) : py_scope.
Notation "m ;;~ k" := (p_bind m (fun _ => k))
  (at level 61, right associativity) : py_scope.

(** [type(v).__name__] *)
Definition type_name_of (v : json) : string :=
  match v with
  | JNone => "NoneType"
  | JInt _ => "int"
  | JStr _ => "str"
  | JList _ => "list"
  | JDict _ => "dict"
  end.

(** The [AttributeError] of [value.get] on a value without this method. *)
Definition no_get (type_name : string) : exn :=
  Exception ("'" ++ type_name ++ "' object has no attribute 'get'").

(** The [TypeError] of [json.dumps] on an object of a type it does not
    know. *)
Definition not_serializable (type_name : string) : exn :=
  Exception ("Object of type " ++ type_name ++ " is not JSON serializable").

(** What [op.get] reads: the entries of a dictionary; any other value
    has no such method. *)
Definition entries_of (op : pyvalue) : result dict :=
  match op with
  | Serialisable (JDict d) => Ok d
  | Serialisable v => Throw (AnException (no_get (type_name_of v)))
  | OpaqueDict d _ => Ok d
  | Opaque type_name _ => Throw (AnException (no_get type_name))
  end.

(** The entries of all the operations, or the raise of the first one
    without [get], in the order the comprehensions go through them. *)
Fixpoint all_entries (ops : list pyvalue) : result (list dict) :=
  match ops with
  | [] => Ok []
  | op :: rest =>
      match entries_of op with
      | Throw x => Throw x
      | Ok d =>
          match all_entries rest with
          | Throw x => Throw x
          | Ok ds => Ok (d :: ds)
          end
      end
  end.

(** What [json.dumps] makes of one operation. *)
Definition to_json (op : pyvalue) : result json :=
  match op with
  | Serialisable v => Ok v
  | OpaqueDict _ refusal => Throw (AnException refusal)
  | Opaque _ refusal => Throw (AnException refusal)
  end.

(** What it makes of all of them: it stops at the first one it refuses. *)
Fixpoint all_to_json (ops : list pyvalue) : result (list json) :=
  match ops with
  | [] => Ok []
  | op :: rest =>
      match to_json op with
      | Throw x => Throw x
      | Ok v =>
          match all_to_json rest with
          | Throw x => Throw x
          | Ok vs => Ok (v :: vs)
          end
      end
  end.

(** [backup_results] when its operations are any objects.  The keys set
    after its creation are kept in [py_late], in the order of their first
    assignment, as a Python dictionary keeps them. *)
Record PyResults : Type := {
  py_timestamp : string;
  py_environment : string;
  py_cluster_name : string;
  py_operations : list pyvalue;
  py_late : list (string * string)
}.

(** [d[key] = value] on the late keys: a key that is there keeps its
    place, a new one goes last. *)
Fixpoint set_key (key value : string) (late : list (string * string))
  : list (string * string) :=
  match late with
  | [] => [(key, value)]
  | (k, v) :: rest =>
      if String.eqb k key then (k, value) :: rest
      else (k, v) :: set_key key value rest
  end.

(** [backup_results['backup_operations'].append(op)] *)
Definition py_append (op : pyvalue) (r : PyResults) : PyResults :=
  {| py_timestamp := py_timestamp r;
     py_environment := py_environment r;
     py_cluster_name := py_cluster_name r;
     py_operations := (py_operations r ++ [op])%list;
     py_late := py_late r |}.

(** [backup_results[key] = value], for [error] and [overall_status]. *)
Definition py_set (key value : string) (r : PyResults) : PyResults :=
  {| py_timestamp := py_timestamp r;
     py_environment := py_environment r;
     py_cluster_name := py_cluster_name r;
     py_operations := py_operations r;
     py_late := set_key key value (py_late r) |}.

(** The report with the given operations and late keys. *)
Definition py_report (env : Env) (clock : Clock) (ops : list pyvalue)
  (late : list (string * string)) : PyResults :=
  {| py_timestamp := isoformat (now_handler clock);
     py_environment := ENVIRONMENT env;
     py_cluster_name := CLUSTER_NAME env;
     py_operations := ops;
     py_late := late |}.

(** The dictionary [json.dumps] writes, once the operations are turned
    into JSON values. *)
Definition py_json (r : PyResults) (operations : list json) : json :=
  JDict ([("timestamp", JStr (py_timestamp r));
          ("environment", JStr (py_environment r));
          ("cluster_name", JStr (py_cluster_name r));
          ("backup_operations", JList operations)]
         ++ map (fun kv => (fst kv, JStr (snd kv))) (py_late r))%list.

(** [json.dumps(backup_results)] *)
Definition py_dumps (r : PyResults) : result json_text :=
  match all_to_json (py_operations r) with
  | Ok operations => Ok (Dumps None (py_json r operations))
  | Throw x => Throw x
  end.

(** The report at its type, for the operations that are dictionaries. *)
Definition typed_results (r : PyResults) (operations : list dict)
  : BackupResults :=
  {| timestamp := py_timestamp r;
     environment := py_environment r;
     cluster_name := py_cluster_name r;
     backup_operations := operations;
     error := option_map snd
                (find (fun kv => String.eqb (fst kv) "error") (py_late r));
     overall_status :=
       option_map snd
         (find (fun kv => String.eqb (fst kv) "overall_status") (py_late r)) |}.

(** [check_backup_health(backup_results)] on any operations: the first
    comprehension calls [op.get] on each of them in turn. *)
Definition py_check_backup_health (r : PyResults) : result string :=
  match py_operations r with
  | [] => Ok "FAILED"
  | _ :: _ =>
      match all_entries (py_operations r) with
      | Ok operations => Ok (check_backup_health (typed_results r operations))
      | Throw x => Throw x
      end
  end.

Record PyFrame : Type := {
  py_results : PyResults;
  py_s3 : S3Log
}.

Definition py_on_results (f : PyResults -> PyResults) : P PyFrame unit :=
  p_modify (fun fr => {| py_results := f (py_results fr); py_s3 := py_s3 fr |}).

Definition py_run_step {A : Type} (step : P S3Log A) : P PyFrame A :=
  fun fr =>
    let (answer, log) := step (py_s3 fr) in
    (answer, {| py_results := py_results fr; py_s3 := log |}).

Section BoundHandler.

Variable env : Env.
Variable clock : Clock.

(** The four steps, bound to anything.  The metadata step reads the
    report it is given and leaves it as it is. *)
Variables k8s rds app : P S3Log pyvalue.
Variable upload : PyResults -> P S3Log pyvalue.

(** The [try] block of [handler]. *)
Definition handler_bound_try : P PyFrame Response :=
  k8s_backup_result <~ py_run_step k8s ;;
  py_on_results (py_append k8s_backup_result) ;;~
  rds_backup_result <~ py_run_step rds ;;
  py_on_results (py_append rds_backup_result) ;;~
  app_data_result <~ py_run_step app ;;
  py_on_results (py_append app_data_result) ;;~
  fr <~ p_get ;;
  metadata_result <~ py_run_step (upload (py_results fr)) ;;
  py_on_results (py_append metadata_result) ;;~
  fr <~ p_get ;;
  overall_status <~ p_eval (py_check_backup_health (py_results fr)) ;;
  py_on_results (py_set "overall_status" overall_status) ;;~
  fr <~ p_get ;;
  text <~ p_eval (py_dumps (py_results fr)) ;;
  p_ret {| statusCode := 200; body := text |}.

(** The [except Exception as e] block of [handler]. *)
Definition handler_bound_except (e : exn) : P PyFrame Response :=
  py_on_results (py_set "error" (str e)) ;;~
  py_on_results (py_set "overall_status" "FAILED") ;;~
  fr <~ p_get ;;
  text <~ p_eval (py_dumps (py_results fr)) ;;
  p_ret {| statusCode := 500; body := text |}.

Definition handler_bound (event context : json) : P S3Log Response :=
  fun log =>
    let (answer, fr) :=
      try_except_Exception handler_bound_try handler_bound_except
        {| py_results := py_report env clock [] []; py_s3 := log |} in
    (answer, py_s3 fr).

(** How far the calls of the steps get, seen from outside: the results
    appended, the raise that stopped the calls if one did, and the
    requests sent to S3. *)
Definition steps_outcome (log : S3Log)
  : list pyvalue * option raisable * S3Log :=
  match k8s log with
  | (Throw x, l) => ([], Some x, l)
  | (Ok a, l1) =>
      match rds l1 with
      | (Throw x, l) => ([a], Some x, l)
      | (Ok b, l2) =>
          match app l2 with
          | (Throw x, l) => ([a; b], Some x, l)
          | (Ok c, l3) =>
              match upload (py_report env clock [a; b; c] []) l3 with
              | (Throw x, l) => ([a; b; c], Some x, l)
              | (Ok d, l4) => ([a; b; c; d], None, l4)
              end
          end
      end
  end.

End BoundHandler.

(** What the [except] block answers for the exception [e], on the report
    with the operations [ops] and the late keys [late]. *)
Definition except_answer (env : Env) (clock : Clock) (ops : list pyvalue)
  (late : list (string * string)) (e : exn) : result Response :=
  match py_dumps (py_set "overall_status" "FAILED"
                    (py_set "error" (str e) (py_report env clock ops late)))
  with
  | Ok text => Ok {| statusCode := 500; body := text |}
  | Throw x => Throw x
  end.

(** A step at its type, seen as a step bound to anything. *)
Definition typed_step (step : M S3Log dict) : P S3Log pyvalue :=
  fun log =>
    match step log with
    | (Return d, log') => (Ok (Serialisable (JDict d)), log')
    | (Raise e, log') => (Throw (AnException e), log')
    end.

(** The dictionaries among some operations. *)
Definition dictionaries (ops : list pyvalue) : list dict :=
  flat_map (fun op => match op with
                      | Serialisable (JDict d) => [d]
                      | _ => []
                      end) ops.

(** The metadata step at its type, seen as bound to anything. *)
Definition typed_upload (upload : BackupResults -> M S3Log dict)
  : PyResults -> P S3Log pyvalue :=
  fun r => typed_step (upload (typed_results r (dictionaries (py_operations r)))).

(** The answer of [handler_with] among the answers of [handler_bound]. *)
Definition typed_answer {A : Type} (answer : outcome A * S3Log)
  : result A * S3Log :=
  match answer with
  | (Return a, log) => (Ok a, log)
  | (Raise e, log) => (Throw (AnException e), log)
  end.

(* ------------------------------------------------------------------ *)
(** ** Vocabulary of the further properties *)

(** The keys of a serialised dictionary, in their order. *)
Definition keys_of (v : json) : list string :=
  match v with
  | JDict d => map fst d
  | _ => []
  end.

(** [backup_key] of [backup_kubernetes_resources]: the key of the archive
    the step reports under [backup_location]. *)
Definition archive_key (env : Env) (clock : Clock) : string :=
  "k8s-backups/" ++ ENVIRONMENT env ++ "/" ++
  strftime (now_kubernetes clock) ++ "/cluster-backup.tar.gz".

(** The request [backup_kubernetes_resources] sends when the cluster is
    active: the metadata of the backup, not the archive. *)
Definition kubernetes_request (env : Env) (clock : Clock) : s3_put :=
  let backup_timestamp := strftime (now_kubernetes clock) in
  {| Bucket := S3_BUCKET env;
     Key := "k8s-backups/" ++ ENVIRONMENT env ++ "/" ++
            backup_timestamp ++ "/metadata.json";
     Body := Dumps None
       (JDict
          [("cluster_name", JStr (CLUSTER_NAME env));
           ("backup_timestamp", JStr backup_timestamp);
           ("backup_type", JStr "full");
           ("namespaces",
            JList [JStr "agentscan"; JStr "kube-system"; JStr "monitoring"]);
           ("resources_backed_up",
            JList [JStr "deployments"; JStr "services"; JStr "configmaps";
                   JStr "secrets"; JStr "persistentvolumeclaims";
                   JStr "ingresses"])]);
     ContentType := "application/json" |}.

(** The request [backup_application_data] sends: the manifest. *)
Definition manifest_request (env : Env) (clock : Clock) : s3_put :=
  let backup_timestamp := strftime (now_application clock) in
  {| Bucket := S3_BUCKET env;
     Key := "app-backups/" ++ ENVIRONMENT env ++ "/" ++ backup_timestamp ++
            "/manifest.json";
     Body := Dumps None
       (JDict
          [("backup_timestamp", JStr backup_timestamp);
           ("environment", JStr (ENVIRONMENT env));
           ("backup_items", JList (map JDict app_backup_items));
           ("total_size_mb",
            JInt (fold_left Z.add (map size_mb app_backup_items) 0%Z))]);
     ContentType := "application/json" |}.

(** [cluster_status == 'ACTIVE'], with a raise of [describe_cluster]
    counted as not active. *)
Definition cluster_is_active (env : Env) (aws : World) : bool :=
  match describe_cluster aws (CLUSTER_NAME env) with
  | Return status => String.eqb status "ACTIVE"
  | Raise _ => false
  end.

(** The requests of one run of [handler], in the order they are sent,
    given the results [a], [b], [c] of the first three steps. *)
Definition requests_of_run (env : Env) (aws : World) (clock : Clock)
  (a b c : dict) : list s3_put :=
  ((if cluster_is_active env aws then [kubernetes_request env clock] else [])
   ++ [manifest_request env clock;
       metadata_request env clock (operations_so_far env clock [a; b; c])])
  %list.

(** The three directories [handler] writes under, for one environment. *)
Definition key_prefixes (env : Env) : list string :=
  ["k8s-backups/" ++ ENVIRONMENT env ++ "/";
   "app-backups/" ++ ENVIRONMENT env ++ "/";
   "backup-reports/" ++ ENVIRONMENT env ++ "/"].

(** A request as every step builds it: to the configured bucket, typed
    as JSON, under one of the three directories. *)
Definition well_addressed (env : Env) (request : s3_put) : Prop :=
  Bucket request = S3_BUCKET env /\
  ContentType request = "application/json" /\
  exists prefix rest,
    In prefix (key_prefixes env) /\ Key request = prefix ++ rest.

(** The year of an instant has four digits, and its other fields fit
    the two digits [strftime] prints them in. *)
Definition fits_widths (t : datetime) : Prop :=
  1000 <= year t /\ year t < 10 ^ 4 /\ month t < 10 ^ 2 /\ day t < 10 ^ 2 /\
  hour t < 10 ^ 2 /\ minute t < 10 ^ 2 /\ second t < 10 ^ 2.

(** Two instants in the same second. *)
Definition same_second (t u : datetime) : Prop :=
  year t = year u /\ month t = month u /\ day t = day u /\
  hour t = hour u /\ minute t = minute u /\ second t = second u.

(** A managed instance the verification step finds in order: automated
    backups are on and its snapshots can be listed. *)
Definition backed_up (aws : World) (i : DBInstance) : Prop :=
  (0 < retention i)%Z /\
  exists snapshots,
    describe_db_snapshots aws (DBInstanceIdentifier i) = Return snapshots.

(* ------------------------------------------------------------------ *)
(** ** Sample runs *)

Module Samples.

Definition prod : Env :=
  {| CLUSTER_NAME := "main"; S3_BUCKET := "backups"; ENVIRONMENT := "prod" |}.

Definition noon : datetime :=
  {| year := 2025; month := 3; day := 9;
     hour := 12; minute := 0; second := 7; microsecond := 0 |}.

Definition later : datetime :=
  {| year := 2025; month := 3; day := 10;
     hour := 1; minute := 30; second := 0; microsecond := 250 |}.

Definition at_noon : Clock :=
  {| now_handler := noon; now_kubernetes := noon;
     now_application := noon; now_metadata := noon |}.

Definition next_day : Clock :=
  {| now_handler := later; now_kubernetes := later;
     now_application := later; now_metadata := later |}.

Definition db_main : DBInstance :=
  {| DBInstanceIdentifier := "agentscan-prod-db";
     BackupRetentionPeriod := Some 7%Z |}.

Definition db_replica : DBInstance :=
  {| DBInstanceIdentifier := "agentscan-prod-replica";
     BackupRetentionPeriod := Some 0%Z |}.

Definition db_staging : DBInstance :=
  {| DBInstanceIdentifier := "agentscan-staging-db";
     BackupRetentionPeriod := Some 7%Z |}.

(** Every client answers; each instance has one automated snapshot. *)
Definition all_well (instances : list DBInstance) : World :=
  {| describe_cluster := fun _ => Return "ACTIVE";
     describe_db_instances := Return instances;
     describe_db_snapshots := fun _ => Return [JStr "rds:snapshot-1"];
     s3_put_object := fun _ => Return tt |}.

(** As [all_well], but S3 refuses the keys under [backup-reports/]. *)
Definition report_write_denied (instances : list DBInstance) : World :=
  {| describe_cluster := fun _ => Return "ACTIVE";
     describe_db_instances := Return instances;
     describe_db_snapshots := fun _ => Return [JStr "rds:snapshot-1"];
     s3_put_object := fun request =>
       if String.prefix "backup-reports/" (Key request)
       then Raise (Exception "AccessDenied")
       else Return tt |}.

(** S3 fails on every request, with an exception that has no message. *)
Definition s3_silent_failure : World :=
  {| describe_cluster := fun _ => Return "ACTIVE";
     describe_db_instances := Return [db_main];
     describe_db_snapshots := fun _ => Return [JStr "rds:snapshot-1"];
     s3_put_object := fun _ => Raise (Exception "") |}.

(** A step replaced by a stub that returns a fixed result. *)
Definition stub_returns (operation status : string) : M S3Log dict :=
  ret [("operation", JStr operation); ("status", JStr status)].

(** A step replaced by a stub that lets an exception out. *)
Definition stub_raises (message : string) : M S3Log dict :=
  raise (Exception message).

Definition report_of_operations (operations : list dict) : BackupResults :=
  {| timestamp := isoformat noon;
     environment := "prod";
     cluster_name := "main";
     backup_operations := operations;
     error := None;
     overall_status := None |}.

Definition empty_report : BackupResults := report_of_operations [].

(** A step bound to a stub that returns a fixed object. *)
Definition bound_returns (v : pyvalue) : P S3Log pyvalue := p_ret v.

(** A step bound to a stub that raises. *)
Definition bound_raises (x : raisable) : P S3Log pyvalue :=
  fun log => (Throw x, log).

Definition fine (operation : string) : pyvalue :=
  Serialisable (JDict [("operation", JStr operation);
                       ("status", JStr "SUCCESS")]).

Definition with_status (status : string) : dict :=
  [("operation", JStr "step"); ("status", JStr status)].

Definition without_status : dict :=
  [("operation", JStr "step")].

End Samples.

(* ------------------------------------------------------------------ *)
(** ** Dictionaries and lists *)

Lemma get_equals_true (d : dict) (key text : string) :
  get_equals d key text = true <-> dict_get key d = Some (JStr text).
Proof.
  unfold get_equals.
  destruct (dict_get key d) as [[| n | s | l | l] |]; split; intro H;
    try discriminate.
  - apply String.eqb_eq in H. now subst.
  - injection H as ->. apply String.eqb_refl.
Qed.

Lemma get_equals_false (d : dict) (key text : string) :
  get_equals d key text = false <-> dict_get key d <> Some (JStr text).
Proof.
  rewrite <- get_equals_true.
  destruct (get_equals d key text); split; intro H; congruence.
Qed.

Lemma filter_nil_existsb {A : Type} (f : A -> bool) (l : list A) :
  filter f l = [] <-> existsb f l = false.
Proof.
  induction l as [| a l IH]; simpl.
  - tauto.
  - destruct (f a); simpl.
    + split; intro H; discriminate.
    + exact IH.
Qed.

Lemma existsb_false_forall {A : Type} (f : A -> bool) (l : list A) :
  existsb f l = false <-> forall a, In a l -> f a = false.
Proof.
  induction l as [| a l IH]; simpl.
  - split; [intros _ x [] | reflexivity].
  - rewrite orb_false_iff, IH. split.
    + intros [Ha Hl] x [<- | Hx]; auto.
    + intro H. split; [apply H; now left | intros x Hx; apply H; now right].
Qed.

(* ------------------------------------------------------------------ *)
(** ** Health evaluation *)

(** [check_backup_health] as a decision list on its operations. *)
Lemma check_backup_health_cases (r : BackupResults) :
  check_backup_health r =
  match backup_operations r with
  | [] => "FAILED"
  | _ :: _ =>
      if existsb is_failed (backup_operations r) then "FAILED"
      else if existsb is_warning (backup_operations r) then "WARNING"
      else "SUCCESS"
  end.
Proof.
  unfold check_backup_health.
  destruct (backup_operations r) as [| op ops] eqn:E; [reflexivity |].
  fold is_failed is_warning.
  destruct (existsb is_failed (op :: ops)) eqn:F.
  - destruct (filter is_failed (op :: ops)) eqn:G; [| reflexivity].
    apply filter_nil_existsb in G. congruence.
  - apply filter_nil_existsb in F. rewrite F.
    destruct (existsb is_warning (op :: ops)) eqn:W.
    + destruct (filter is_warning (op :: ops)) eqn:G; [| reflexivity].
      apply filter_nil_existsb in G. congruence.
    + apply filter_nil_existsb in W. now rewrite W.
Qed.

Lemma existsb_intro {A : Type} (f : A -> bool) (l : list A) (a : A) :
  In a l -> f a = true -> existsb f l = true.
Proof.
  intros Hin Hf. apply existsb_exists. now exists a.
Qed.

(** C4: the health evaluation answers FAILED for the empty sequence of
    step results, and for every sequence that holds a step result whose
    status is FAILED, wherever it stands and whatever the other entries
    are. *)
Theorem C4_failed_dominates :
  (forall r, backup_operations r = [] -> check_backup_health r = "FAILED") /\
  (forall r op,
      In op (backup_operations r) ->
      dict_get "status" op = Some (JStr "FAILED") ->
      check_backup_health r = "FAILED").
Proof.
  split.
  - intros r E. rewrite check_backup_health_cases, E. reflexivity.
  - intros r op Hin Hst. rewrite check_backup_health_cases.
    destruct (backup_operations r) as [| o os] eqn:E; [reflexivity |].
    rewrite (existsb_intro is_failed _ op Hin); [reflexivity |].
    now apply get_equals_true.
Qed.

Lemma C4_failed_dominates_witness :
  check_backup_health (Samples.report_of_operations []) = "FAILED" /\
  check_backup_health
    (Samples.report_of_operations
       [Samples.with_status "SKIPPED"; Samples.with_status "WARNING";
        Samples.with_status "FAILED"; Samples.with_status "SUCCESS"])
  = "FAILED".
Proof.
  split.
  - apply (proj1 C4_failed_dominates). reflexivity.
  - apply (proj2 C4_failed_dominates) with (op := Samples.with_status "FAILED").
    + simpl. auto.
    + reflexivity.
Defined.

(** C5, against the claim as stated: the empty sequence holds no FAILED
    entry and all its entries are SUCCESS or SKIPPED, yet its health is
    FAILED, not SUCCESS. *)
Lemma C5_counterexample :
  (forall op, In op (backup_operations Samples.empty_report) ->
              dict_get "status" op <> Some (JStr "FAILED")) /\
  (forall op, In op (backup_operations Samples.empty_report) ->
              dict_get "status" op = Some (JStr "SUCCESS") \/
              dict_get "status" op = Some (JStr "SKIPPED")) /\
  check_backup_health Samples.empty_report = "FAILED" /\
  check_backup_health Samples.empty_report <> "SUCCESS".
Proof.
  repeat split; try (intros op []); discriminate.
Qed.

Lemma not_failed_existsb (ops : list dict) :
  (forall op, In op ops -> dict_get "status" op <> Some (JStr "FAILED")) ->
  existsb is_failed ops = false.
Proof.
  intro H. apply existsb_false_forall. intros op Hin.
  apply get_equals_false. auto.
Qed.

Lemma skipped_is_neutral (op : dict) :
  dict_get "status" op = Some (JStr "SKIPPED") ->
  is_failed op = false /\ is_warning op = false.
Proof.
  intro H. split; apply get_equals_false; rewrite H; discriminate.
Qed.

Lemma existsb_without {A : Type} (f : A -> bool) (l1 l2 : list A) (a : A) :
  f a = false -> existsb f (l1 ++ a :: l2) = existsb f (l1 ++ l2).
Proof.
  intro H. rewrite !existsb_app. simpl. now rewrite H.
Qed.

(** C5, as the code has it: for every non-empty sequence of step results
    with no FAILED entry, the health is WARNING when some entry is
    WARNING, and SUCCESS when every entry is SUCCESS or SKIPPED; taking a
    SKIPPED entry out of a sequence that stays non-empty leaves the health
    as it was. *)
Theorem C5_warning_then_success :
  (forall r,
      backup_operations r <> [] ->
      (forall op, In op (backup_operations r) ->
                  dict_get "status" op <> Some (JStr "FAILED")) ->
      ((exists op, In op (backup_operations r) /\
                   dict_get "status" op = Some (JStr "WARNING")) ->
       check_backup_health r = "WARNING") /\
      ((forall op, In op (backup_operations r) ->
                   dict_get "status" op = Some (JStr "SUCCESS") \/
                   dict_get "status" op = Some (JStr "SKIPPED")) ->
       check_backup_health r = "SUCCESS")) /\
  (forall r r' before after skipped,
      dict_get "status" skipped = Some (JStr "SKIPPED") ->
      backup_operations r = (before ++ skipped :: after)%list ->
      backup_operations r' = (before ++ after)%list ->
      (before ++ after)%list <> [] ->
      check_backup_health r = check_backup_health r').
Proof.
  split.
  - intros r Hne Hnf. rewrite check_backup_health_cases.
    destruct (backup_operations r) as [| o os] eqn:E; [congruence |].
    rewrite (not_failed_existsb _ Hnf). split.
    + intros [op [Hin Hw]].
      rewrite (existsb_intro is_warning _ op Hin); [reflexivity |].
      now apply get_equals_true.
    + intro Hall.
      replace (existsb is_warning (o :: os)) with false; [reflexivity |].
      symmetry. apply existsb_false_forall. intros op Hin.
      apply get_equals_false.
      destruct (Hall op Hin) as [H | H]; rewrite H; discriminate.
  - intros r r' before after skipped Hs E E' Hne.
    destruct (skipped_is_neutral _ Hs) as [Hf Hw].
    rewrite !check_backup_health_cases, E, E'.
    rewrite (existsb_without is_failed _ _ _ Hf).
    rewrite (existsb_without is_warning _ _ _ Hw).
    destruct (before ++ after)%list eqn:B; [congruence |].
    destruct before; reflexivity.
Qed.

Lemma C5_warning_then_success_witness :
  check_backup_health
    (Samples.report_of_operations
       [Samples.with_status "SKIPPED"; Samples.with_status "WARNING";
        Samples.with_status "SUCCESS"]) = "WARNING" /\
  check_backup_health
    (Samples.report_of_operations
       [Samples.with_status "SKIPPED"; Samples.with_status "SUCCESS"])
  = "SUCCESS" /\
  check_backup_health
    (Samples.report_of_operations
       [Samples.with_status "WARNING"; Samples.with_status "SKIPPED"])
  = check_backup_health
      (Samples.report_of_operations [Samples.with_status "WARNING"]).
Proof.
  split; [| split].
  - apply (proj1 C5_warning_then_success).
    + discriminate.
    + simpl. intros op [<- | [<- | [<- | []]]]; discriminate.
    + exists (Samples.with_status "WARNING"). simpl. auto.
  - apply (proj1 C5_warning_then_success).
    + discriminate.
    + simpl. intros op [<- | [<- | []]]; discriminate.
    + simpl. intros op [<- | [<- | []]]; auto.
  - apply (proj2 C5_warning_then_success)
      with (before := [Samples.with_status "WARNING"]) (after := [])
           (skipped := Samples.with_status "SKIPPED").
    + reflexivity.
    + reflexivity.
    + reflexivity.
    + discriminate.
Defined.

(** C9: a step result whose status is not exactly FAILED or WARNING, be
    it an unknown word such as DISABLED, a value that is not a string, or
    no status at all, weighs nothing: every non-empty sequence of such
    results has health SUCCESS. *)
Theorem C9_other_statuses_are_neutral :
  forall r,
    backup_operations r <> [] ->
    (forall op, In op (backup_operations r) ->
                dict_get "status" op <> Some (JStr "FAILED") /\
                dict_get "status" op <> Some (JStr "WARNING")) ->
    check_backup_health r = "SUCCESS".
Proof.
  intros r Hne H. rewrite check_backup_health_cases.
  destruct (backup_operations r) as [| o os] eqn:E; [congruence |].
  rewrite not_failed_existsb by (intros op Hin; apply H; exact Hin).
  replace (existsb is_warning (o :: os)) with false; [reflexivity |].
  symmetry. apply existsb_false_forall. intros op Hin.
  apply get_equals_false. apply H. exact Hin.
Qed.

Lemma C9_other_statuses_are_neutral_witness :
  check_backup_health
    (Samples.report_of_operations
       [Samples.with_status "DISABLED"; Samples.without_status;
        [("status", JInt 3)]; [("status", JNone)];
        Samples.with_status "failed"]) = "SUCCESS".
Proof.
  apply C9_other_statuses_are_neutral.
  - discriminate.
  - simpl. intros op [<- | [<- | [<- | [<- | [<- | []]]]]]; split; discriminate.
Defined.

(* ------------------------------------------------------------------ *)
(** ** The steps *)

Lemma try_except_raise {S A : Type} (body : M S A) (handle : exn -> M S A)
  (s s' : S) (e : exn) :
  body s = (Raise e, s') -> try_except body handle s = handle e s'.
Proof.
  intro H. unfold try_except. now rewrite H.
Qed.

Lemma filter_none {A : Type} (f : A -> bool) (l : list A) :
  (forall a, In a l -> f a = false) -> filter f l = [].
Proof.
  intro H. apply filter_nil_existsb. now apply existsb_false_forall.
Qed.

(** The verification step on a given list of matching instances. *)
Lemma verify_rds_backups_on (env : Env) (aws : World)
  (instances : list DBInstance) (entries : list dict) (log : S3Log) :
  describe_db_instances aws = Return instances ->
  collect_backup_status aws (filter (is_agentscan_instance env) instances) log
  = (Return entries, log) ->
  verify_rds_backups env aws log =
  (Return [("operation", JStr "rds_backup_verification");
           ("status", JStr (if forallb healthy_or_warning entries
                            then "SUCCESS" else "FAILED"));
           ("instances", JList (map JDict entries))], log).
Proof.
  intros Hd Hc.
  unfold verify_rds_backups, try_except, verify_rds_backups_try.
  unfold bind, call. rewrite Hd, Hc. reflexivity.
Qed.

(** C10: when no instance returned by [describe_db_instances] carries the
    environment name in its identifier, the list of per-instance statuses
    is empty and the verification step reports SUCCESS. *)
Theorem C10_no_matching_instance :
  forall env aws instances log,
    describe_db_instances aws = Return instances ->
    (forall i, In i instances ->
               contains (ENVIRONMENT env) (DBInstanceIdentifier i) = false) ->
    verify_rds_backups env aws log =
    (Return [("operation", JStr "rds_backup_verification");
             ("status", JStr "SUCCESS");
             ("instances", JList [])], log).
Proof.
  intros env aws instances log Hd Hnone.
  rewrite (verify_rds_backups_on env aws instances [] log Hd).
  - reflexivity.
  - rewrite (filter_none (is_agentscan_instance env) instances Hnone).
    reflexivity.
Qed.

Lemma C10_no_matching_instance_witness :
  verify_rds_backups Samples.prod (Samples.all_well [Samples.db_staging]) [] =
  (Return [("operation", JStr "rds_backup_verification");
           ("status", JStr "SUCCESS");
           ("instances", JList [])], []).
Proof.
  apply (C10_no_matching_instance Samples.prod
           (Samples.all_well [Samples.db_staging]) [Samples.db_staging] []).
  - reflexivity.
  - intros i [<- | []]. reflexivity.
Defined.

Lemma instance_disabled (aws : World) (i : DBInstance) (log : S3Log) :
  (retention i <= 0)%Z ->
  instance_backup_status aws i log =
  (Return [("instance_id", JStr (DBInstanceIdentifier i));
           ("backup_retention_days", JInt (retention i));
           ("status", JStr "DISABLED")], log).
Proof.
  intro H. unfold instance_backup_status.
  destruct (retention i >? 0)%Z eqn:E; [| reflexivity].
  apply Z.gtb_lt in E. lia.
Qed.

Lemma instance_healthy (aws : World) (i : DBInstance)
  (snapshots : list json) (log : S3Log) :
  (0 < retention i)%Z ->
  describe_db_snapshots aws (DBInstanceIdentifier i) = Return snapshots ->
  snapshots <> [] ->
  instance_backup_status aws i log =
  (Return [("instance_id", JStr (DBInstanceIdentifier i));
           ("backup_retention_days", JInt (retention i));
           ("recent_snapshots", JInt (Z.of_nat (length snapshots)));
           ("status", JStr "HEALTHY")], log).
Proof.
  intros Hr Hs Hne. unfold instance_backup_status.
  destruct (retention i >? 0)%Z eqn:E.
  - unfold bind, call, ret. rewrite Hs.
    destruct snapshots as [| x xs]; [congruence | reflexivity].
  - rewrite Z.gtb_ltb in E. apply Z.ltb_ge in E. lia.
Qed.

(** C3, against the claim as stated: with one instance whose retention is
    0 and one healthy instance, the verification step reports FAILED, not
    SUCCESS. *)
Lemma C3_counterexample :
  verify_rds_backups Samples.prod
    (Samples.all_well [Samples.db_replica; Samples.db_main]) [] =
  (Return [("operation", JStr "rds_backup_verification");
           ("status", JStr "FAILED");
           ("instances",
            JList [JDict [("instance_id", JStr "agentscan-prod-replica");
                          ("backup_retention_days", JInt 0);
                          ("status", JStr "DISABLED")];
                   JDict [("instance_id", JStr "agentscan-prod-db");
                          ("backup_retention_days", JInt 7);
                          ("recent_snapshots", JInt 1);
                          ("status", JStr "HEALTHY")]])], []) /\
  fst (verify_rds_backups Samples.prod
         (Samples.all_well [Samples.db_replica; Samples.db_main]) []) <>
  Return [("operation", JStr "rds_backup_verification");
          ("status", JStr "SUCCESS");
          ("instances",
           JList [JDict [("instance_id", JStr "agentscan-prod-replica");
                         ("backup_retention_days", JInt 0);
                         ("status", JStr "DISABLED")];
                  JDict [("instance_id", JStr "agentscan-prod-db");
                         ("backup_retention_days", JInt 7);
                         ("recent_snapshots", JInt 1);
                         ("status", JStr "HEALTHY")]])].
Proof.
  split; [reflexivity | vm_compute; discriminate].
Qed.

(** C3, as the code has it: when the verification step sees exactly two
    managed instances, one with retention 0 and one healthy, the first is
    marked DISABLED, the second HEALTHY, and the step itself reports
    FAILED, since DISABLED is neither HEALTHY nor WARNING. *)
Theorem C3_disabled_resource_fails_step :
  forall env aws instances disabled healthy snapshots log,
    describe_db_instances aws = Return instances ->
    (filter (is_agentscan_instance env) instances = [disabled; healthy] \/
     filter (is_agentscan_instance env) instances = [healthy; disabled]) ->
    retention disabled = 0%Z ->
    (0 < retention healthy)%Z ->
    describe_db_snapshots aws (DBInstanceIdentifier healthy)
    = Return snapshots ->
    snapshots <> [] ->
    exists entry_disabled entry_healthy result,
      instance_backup_status aws disabled log = (Return entry_disabled, log) /\
      dict_get "status" entry_disabled = Some (JStr "DISABLED") /\
      instance_backup_status aws healthy log = (Return entry_healthy, log) /\
      dict_get "status" entry_healthy = Some (JStr "HEALTHY") /\
      verify_rds_backups env aws log = (Return result, log) /\
      dict_get "status" result = Some (JStr "FAILED") /\
      (dict_get "instances" result
       = Some (JList [JDict entry_disabled; JDict entry_healthy]) \/
       dict_get "instances" result
       = Some (JList [JDict entry_healthy; JDict entry_disabled])).
Proof.
  intros env aws instances disabled healthy snapshots log
         Hd Hfilter Hzero Hpos Hsnap Hne.
  assert (Hdis := instance_disabled aws disabled log
                    ltac:(rewrite Hzero; reflexivity)).
  assert (Hhea := instance_healthy aws healthy snapshots log Hpos Hsnap Hne).
  destruct Hfilter as [Hf | Hf]; eexists _, _, _;
    (split; [exact Hdis |]); (split; [reflexivity |]);
    (split; [exact Hhea |]); (split; [reflexivity |]).
  - split; [| split].
    + apply (verify_rds_backups_on env aws instances); [exact Hd |].
      rewrite Hf. simpl. unfold bind at 1. rewrite Hdis.
      unfold bind at 1. unfold bind at 1. rewrite Hhea. reflexivity.
    + reflexivity.
    + left. reflexivity.
  - split; [| split].
    + apply (verify_rds_backups_on env aws instances); [exact Hd |].
      rewrite Hf. simpl. unfold bind at 1. rewrite Hhea.
      unfold bind at 1. unfold bind at 1. rewrite Hdis. reflexivity.
    + reflexivity.
    + right. reflexivity.
Qed.

Lemma C3_disabled_resource_fails_step_witness :
  exists result,
    verify_rds_backups Samples.prod
      (Samples.all_well
         [Samples.db_staging; Samples.db_main; Samples.db_replica]) []
    = (Return result, []) /\
    dict_get "status" result = Some (JStr "FAILED").
Proof.
  destruct (C3_disabled_resource_fails_step Samples.prod
              (Samples.all_well
                 [Samples.db_staging; Samples.db_main; Samples.db_replica])
              [Samples.db_staging; Samples.db_main; Samples.db_replica]
              Samples.db_replica Samples.db_main [JStr "rds:snapshot-1"] [])
    as (ed & eh & result & _ & _ & _ & _ & Hrun & Hstatus & _).
  - reflexivity.
  - right. reflexivity.
  - reflexivity.
  - reflexivity.
  - reflexivity.
  - discriminate.
  - exists result. split; [exact Hrun | exact Hstatus].
Defined.

(* ------------------------------------------------------------------ *)
(** ** Isolation of the steps *)

Lemma isolates_guarded (body : M S3Log dict) (operation : string) :
  (forall log r log',
      body log = (Return r, log') ->
      dict_get "operation" r = Some (JStr operation)) ->
  isolates body
    (try_except body (fun e => ret (failed_operation operation e)))
    operation.
Proof.
  intros Hname log. split.
  - unfold try_except, ret.
    destruct (body log) as [[r | e] log'] eqn:E.
    + exists r, log'. split; [reflexivity | exact (Hname _ _ _ E)].
    + exists (failed_operation operation e), log'. split; reflexivity.
  - intros e log' E. now rewrite (try_except_raise _ _ _ _ _ E).
Qed.

Lemma backup_kubernetes_resources_isolated (env : Env) (aws : World)
  (clock : Clock) :
  isolates (backup_kubernetes_resources_try env aws clock)
           (backup_kubernetes_resources env aws clock) "kubernetes_backup".
Proof.
  apply isolates_guarded. intros log r log'.
  unfold backup_kubernetes_resources_try, bind, call, put_object, ret.
  destruct (describe_cluster aws (CLUSTER_NAME env)) as [status | e];
    [| discriminate].
  destruct (negb (status =? "ACTIVE")%string).
  - intro H. injection H as <- _. reflexivity.
  - destruct (s3_put_object aws _); [| discriminate].
    intro H. injection H as <- _. reflexivity.
Qed.

Lemma verify_rds_backups_isolated (env : Env) (aws : World) :
  isolates (verify_rds_backups_try env aws) (verify_rds_backups env aws)
           "rds_backup_verification".
Proof.
  apply isolates_guarded. intros log r log'.
  unfold verify_rds_backups_try, bind, call, ret.
  destruct (describe_db_instances aws) as [instances | e]; [| discriminate].
  destruct (collect_backup_status aws _ log) as [[entries | e] log1];
    [| discriminate].
  intro H. injection H as <- _. reflexivity.
Qed.

Lemma backup_application_data_isolated (env : Env) (aws : World)
  (clock : Clock) :
  isolates (backup_application_data_try env aws clock)
           (backup_application_data env aws clock) "application_data_backup".
Proof.
  apply isolates_guarded. intros log r log'.
  unfold backup_application_data_try, bind, put_object, ret.
  destruct (s3_put_object aws _); [| discriminate].
  intro H. injection H as <- _. reflexivity.
Qed.

Lemma upload_backup_metadata_isolated (env : Env) (aws : World)
  (clock : Clock) (backup_results : BackupResults) :
  isolates (upload_backup_metadata_try env aws clock backup_results)
           (upload_backup_metadata env aws clock backup_results)
           "metadata_upload".
Proof.
  apply isolates_guarded. intros log r log'.
  unfold upload_backup_metadata_try, bind, put_object, ret.
  destruct (s3_put_object aws _); [| discriminate].
  intro H. injection H as <- _. reflexivity.
Qed.

(* ------------------------------------------------------------------ *)
(** ** The entry point *)

Section HandlerFacts.

Variable env : Env.
Variable clock : Clock.
Variables k8s rds app : M S3Log dict.
Variable upload : BackupResults -> M S3Log dict.
Variables event context : json.
Variable log : S3Log.

Ltac run_handler :=
  unfold handler_with, try_except, handler_try, handler_except,
         bind, run_step, on_results, modify, get, ret; simpl.

Lemma handler_with_completes (operations : list dict) (log' : S3Log) :
  completes env clock k8s rds app upload log operations log' ->
  handler_with env clock k8s rds app upload event context log =
  (Return {| statusCode := 200;
             body := Dumps None
                       (results_json (completed env clock operations)) |},
   log').
Proof.
  intros [a b c d l1 l2 l3 l4 H1 H2 H3 H4].
  unfold operations_so_far in H4. simpl in H4.
  run_handler. rewrite H1. simpl. rewrite H2. simpl. rewrite H3. simpl.
  rewrite H4. reflexivity.
Qed.

Lemma handler_with_escapes (e : exn) (operations : list dict)
  (log' : S3Log) :
  escapes env clock k8s rds app upload log e operations log' ->
  handler_with env clock k8s rds app upload event context log =
  (Return {| statusCode := 500;
             body := Dumps None
                       (results_json (aborted env clock operations e)) |},
   log').
Proof.
  intros [e' l H1 | a e' l1 l H1 H2 | a b e' l1 l2 l H1 H2 H3
          | a b c e' l1 l2 l3 l H1 H2 H3 H4]; run_handler.
  - rewrite H1. reflexivity.
  - rewrite H1. simpl. rewrite H2. reflexivity.
  - rewrite H1. simpl. rewrite H2. simpl. rewrite H3. reflexivity.
  - unfold operations_so_far in H4. simpl in H4.
    rewrite H1. simpl. rewrite H2. simpl. rewrite H3. simpl.
    rewrite H4. reflexivity.
Qed.

(** Every run either completes its four steps or sees one of them let an
    exception out. *)
Lemma completes_or_escapes :
  (exists operations log',
      completes env clock k8s rds app upload log operations log') \/
  (exists e operations log',
      escapes env clock k8s rds app upload log e operations log').
Proof.
  destruct (k8s log) as [[a | e] l1] eqn:H1.
  2: { right. exists e, [], l1. now constructor. }
  destruct (rds l1) as [[b | e] l2] eqn:H2.
  2: { right. exists e, [a], l2. now apply escapes_rds with (l1 := l1). }
  destruct (app l2) as [[c | e] l3] eqn:H3.
  2: { right. exists e, [a; b], l3.
       now apply escapes_application with (l1 := l1) (l2 := l2). }
  destruct (upload (operations_so_far env clock [a; b; c]) l3)
    as [[d | e] l4] eqn:H4.
  - left. exists [a; b; c; d], l4.
    now apply completes_all with (l1 := l1) (l2 := l2) (l3 := l3).
  - right. exists e, [a; b; c], l4.
    now apply escapes_upload with (l1 := l1) (l2 := l2) (l3 := l3).
Qed.

End HandlerFacts.

(** With the steps of the module, every run completes. *)
Lemma handler_completes (env : Env) (aws : World) (clock : Clock)
  (log : S3Log) :
  exists a b c d log',
    completes env clock
      (backup_kubernetes_resources env aws clock)
      (verify_rds_backups env aws)
      (backup_application_data env aws clock)
      (upload_backup_metadata env aws clock)
      log [a; b; c; d] log' /\
    dict_get "operation" a = Some (JStr "kubernetes_backup") /\
    dict_get "operation" b = Some (JStr "rds_backup_verification") /\
    dict_get "operation" c = Some (JStr "application_data_backup") /\
    dict_get "operation" d = Some (JStr "metadata_upload").
Proof.
  destruct (proj1 (backup_kubernetes_resources_isolated env aws clock log))
    as (a & l1 & H1 & Na).
  destruct (proj1 (verify_rds_backups_isolated env aws l1))
    as (b & l2 & H2 & Nb).
  destruct (proj1 (backup_application_data_isolated env aws clock l2))
    as (c & l3 & H3 & Nc).
  destruct (proj1 (upload_backup_metadata_isolated env aws clock
                     (operations_so_far env clock [a; b; c]) l3))
    as (d & l4 & H4 & Nd).
  exists a, b, c, d, l4. repeat split; try assumption.
  now apply completes_all with (l1 := l1) (l2 := l2) (l3 := l3).
Qed.

(** C6, against the claim as stated: S3 refuses the manifest with an
    exception whose text is empty; the application step returns FAILED,
    but the error description it carries is the empty string. *)
Lemma C6_counterexample :
  exists request,
    backup_application_data_try Samples.prod Samples.s3_silent_failure
      Samples.at_noon [] = (Raise (Exception ""), [request]) /\
    backup_application_data Samples.prod Samples.s3_silent_failure
      Samples.at_noon [] =
    (Return [("operation", JStr "application_data_backup");
             ("status", JStr "FAILED");
             ("error", JStr "")], [request]).
Proof.
  eexists. split; reflexivity.
Qed.

(** C6, as the code has it: each of the four steps always returns and
    never raises; when its underlying action raises [e], the step returns
    the result with status FAILED whose error is [str(e)], which is empty
    exactly when the exception has no text; and whatever the steps meet,
    [handler] calls the four of them, one after the other, and the report
    it returns holds the very results they returned, in this order. *)
Theorem C6_step_failure_is_contained :
  forall env aws clock,
    isolates (backup_kubernetes_resources_try env aws clock)
             (backup_kubernetes_resources env aws clock)
             "kubernetes_backup" /\
    isolates (verify_rds_backups_try env aws)
             (verify_rds_backups env aws)
             "rds_backup_verification" /\
    isolates (backup_application_data_try env aws clock)
             (backup_application_data env aws clock)
             "application_data_backup" /\
    (forall backup_results,
        isolates (upload_backup_metadata_try env aws clock backup_results)
                 (upload_backup_metadata env aws clock backup_results)
                 "metadata_upload") /\
    (forall operation e,
        dict_get "status" (failed_operation operation e)
        = Some (JStr "FAILED") /\
        dict_get "error" (failed_operation operation e)
        = Some (JStr (str e))) /\
    (forall event context log,
        exists a b c d log',
          completes env clock
            (backup_kubernetes_resources env aws clock)
            (verify_rds_backups env aws)
            (backup_application_data env aws clock)
            (upload_backup_metadata env aws clock)
            log [a; b; c; d] log' /\
          handler env aws clock event context log =
          (Return {| statusCode := 200;
                     body := Dumps None
                               (results_json
                                  (completed env clock [a; b; c; d])) |},
           log') /\
          backup_operations (completed env clock [a; b; c; d])
          = [a; b; c; d] /\
          dict_get "operation" a = Some (JStr "kubernetes_backup") /\
          dict_get "operation" b = Some (JStr "rds_backup_verification") /\
          dict_get "operation" c = Some (JStr "application_data_backup") /\
          dict_get "operation" d = Some (JStr "metadata_upload")).
Proof.
  intros env aws clock.
  split; [apply backup_kubernetes_resources_isolated |].
  split; [apply verify_rds_backups_isolated |].
  split; [apply backup_application_data_isolated |].
  split; [intro r; apply upload_backup_metadata_isolated |].
  split; [intros operation e; split; reflexivity |].
  intros event context log.
  destruct (handler_completes env aws clock log)
    as (a & b & c & d & log' & Hrun & Na & Nb & Nc & Nd).
  exists a, b, c, d, log'. split; [exact Hrun |].
  split; [unfold handler; now apply handler_with_completes |].
  repeat split; assumption.
Qed.

Lemma C6_step_failure_is_contained_witness :
  upload_backup_metadata Samples.prod
    (Samples.report_write_denied [Samples.db_main]) Samples.at_noon
    Samples.empty_report [] =
  (Return (failed_operation "metadata_upload" (Exception "AccessDenied")),
   [metadata_request Samples.prod Samples.at_noon Samples.empty_report]).
Proof.
  apply (proj2 (proj1 (proj2 (proj2 (proj2
           (C6_step_failure_is_contained Samples.prod
              (Samples.report_write_denied [Samples.db_main])
              Samples.at_noon)))) Samples.empty_report [])).
  reflexivity.
Defined.

(* ------------------------------------------------------------------ *)
(** ** The entry point over any binding of its steps *)

Lemma all_to_json_throws (ops : list pyvalue) (x : raisable) :
  all_to_json ops = Throw x -> exists e, x = AnException e.
Proof.
  induction ops as [| op ops IH]; simpl; [discriminate |].
  destruct op as [v | d r | t r]; simpl.
  - destruct (all_to_json ops) as [vs | y]; [discriminate |].
    intro H. injection H as <-. now apply IH.
  - intro H. injection H as <-. now eexists.
  - intro H. injection H as <-. now eexists.
Qed.

Lemma all_to_json_length (ops : list pyvalue) (vs : list json) :
  all_to_json ops = Ok vs -> length vs = length ops.
Proof.
  revert vs. induction ops as [| op ops IH]; simpl; intro vs.
  - intro H. injection H as <-. reflexivity.
  - destruct (to_json op) as [v | x]; [| discriminate].
    destruct (all_to_json ops) as [ws | x]; [| discriminate].
    intro H. injection H as <-. simpl. now rewrite (IH ws).
Qed.

Lemma all_entries_throws (ops : list pyvalue) (x : raisable) :
  all_entries ops = Throw x -> exists e, x = AnException e.
Proof.
  induction ops as [| op ops IH]; simpl; [discriminate |].
  destruct (entries_of op) as [d | y] eqn:E.
  - destruct (all_entries ops) as [ds | z]; [discriminate |].
    intro H. injection H as <-. now apply IH.
  - intro H. injection H as <-.
    destruct op as [[| n | s | l | d] | d r | t r]; simpl in E;
      try discriminate; injection E as <-; now eexists.
Qed.

Lemma py_check_backup_health_throws (r : PyResults) (x : raisable) :
  py_check_backup_health r = Throw x -> exists e, x = AnException e.
Proof.
  unfold py_check_backup_health.
  destruct (py_operations r) as [| op ops]; [discriminate |].
  destruct (all_entries (op :: ops)) as [ds | y] eqn:E; [discriminate |].
  intro H. injection H as <-. exact (all_entries_throws _ _ E).
Qed.

(** The [except] block answers with status code 500 when the operations
    can be serialised, and raises the [TypeError] of [json.dumps] when
    they cannot. *)
Lemma except_answer_cases (env : Env) (clock : Clock) (ops : list pyvalue)
  (late : list (string * string)) (e : exn) :
  except_answer env clock ops late e =
  match all_to_json ops with
  | Ok operations =>
      Ok {| statusCode := 500;
            body := Dumps None
                      (py_json
                         (py_report env clock ops
                            (set_key "overall_status" "FAILED"
                               (set_key "error" (str e) late)))
                         operations) |}
  | Throw x => Throw x
  end.
Proof.
  unfold except_answer, py_dumps. simpl.
  destruct (all_to_json ops); reflexivity.
Qed.

Lemma py_dumps_cases (env : Env) (clock : Clock) (ops : list pyvalue)
  (late : list (string * string)) :
  py_dumps (py_report env clock ops late) =
  match all_to_json ops with
  | Ok operations =>
      Ok (Dumps None (py_json (py_report env clock ops late) operations))
  | Throw x => Throw x
  end.
Proof.
  reflexivity.
Qed.

Section BoundFacts.

Variable env : Env.
Variable clock : Clock.
Variables k8s rds app : P S3Log pyvalue.
Variable upload : PyResults -> P S3Log pyvalue.
Variables event context : json.
Variable log : S3Log.

#[local] Arguments py_check_backup_health : simpl never.
#[local] Arguments py_dumps : simpl never.
#[local] Arguments except_answer : simpl never.

Ltac close_branch :=
  unfold except_answer, py_append, py_set, py_report; simpl;
  try reflexivity;
  match goal with
  | |- context [py_dumps ?r] =>
      destruct (py_dumps r) as [? | [? | ?]]; reflexivity
  end.

(** [handler_bound] from the outcome of its steps. *)
Lemma handler_bound_eq :
  handler_bound env clock k8s rds app upload event context log =
  match steps_outcome env clock k8s rds app upload log with
  | (ops, Some (BaseOnly c), l) => (Throw (BaseOnly c), l)
  | (ops, Some (AnException e), l) => (except_answer env clock ops [] e, l)
  | (ops, None, l) =>
      match py_check_backup_health (py_report env clock ops []) with
      | Throw (BaseOnly c) => (Throw (BaseOnly c), l)
      | Throw (AnException e) => (except_answer env clock ops [] e, l)
      | Ok health =>
          match py_dumps (py_report env clock ops
                            [("overall_status", health)]) with
          | Ok text => (Ok {| statusCode := 200; body := text |}, l)
          | Throw (AnException e) =>
              (except_answer env clock ops [("overall_status", health)] e, l)
          | Throw (BaseOnly c) => (Throw (BaseOnly c), l)
          end
      end
  end.
Proof.
  unfold handler_bound, steps_outcome, try_except_Exception,
         handler_bound_try, handler_bound_except, p_bind, py_run_step,
         py_on_results, p_modify, p_get, p_ret, p_eval. simpl.
  destruct (k8s log) as [[a | [e | c]] l1]; simpl; [| close_branch ..].
  destruct (rds l1) as [[b | [e | c]] l2]; simpl; [| close_branch ..].
  destruct (app l2) as [[c | [e | c']] l3]; simpl; [| close_branch ..].
  unfold py_append at 1. simpl.
  change {| py_timestamp := isoformat (now_handler clock);
            py_environment := ENVIRONMENT env;
            py_cluster_name := CLUSTER_NAME env;
            py_operations := [a; b; c];
            py_late := [] |}
    with (py_report env clock [a; b; c] []).
  destruct (upload (py_report env clock [a; b; c] []) l3)
    as [[d | [e | c']] l4]; simpl; [| close_branch ..].
  unfold py_append, py_set, py_report. simpl.
  destruct (py_check_backup_health _) as [health | [e | c']]; simpl;
    [| close_branch ..].
  destruct (py_dumps _) as [text | [e | c']]; simpl; close_branch.
Qed.

Lemma steps_outcome_length (ops : list pyvalue) (stop : option raisable)
  (l : S3Log) :
  steps_outcome env clock k8s rds app upload log = (ops, stop, l) ->
  length ops <= 4 /\ (length ops = 4 <-> stop = None).
Proof.
  unfold steps_outcome.
  destruct (k8s log) as [[a | x] l1].
  2: { intro H. injection H as <- <- _. simpl.
       split; [lia | split; [lia | discriminate]]. }
  destruct (rds l1) as [[b | x] l2].
  2: { intro H. injection H as <- <- _. simpl.
       split; [lia | split; [lia | discriminate]]. }
  destruct (app l2) as [[c | x] l3].
  2: { intro H. injection H as <- <- _. simpl.
       split; [lia | split; [lia | discriminate]]. }
  destruct (upload _ l3) as [[d | x] l4].
  - intro H. injection H as <- <- _. simpl. split; [lia | tauto].
  - intro H. injection H as <- <- _. simpl.
    split; [lia | split; [lia | discriminate]].
Qed.

End BoundFacts.

(* ------------------------------------------------------------------ *)
(** ** The top-level catch *)

Lemma handler_with_returns (env : Env) (clock : Clock)
  (k8s rds app : M S3Log dict) (upload : BackupResults -> M S3Log dict)
  (event context : json) (log : S3Log) :
  exists response log',
    handler_with env clock k8s rds app upload event context log
    = (Return response, log').
Proof.
  destruct (completes_or_escapes env clock k8s rds app upload log)
    as [(ops & log' & H) | (e & ops & log' & H)].
  - eexists _, _.
    exact (handler_with_completes env clock k8s rds app upload
             event context log ops log' H).
  - eexists _, _.
    exact (handler_with_escapes env clock k8s rds app upload
             event context log e ops log' H).
Qed.

(** On steps that keep to their type, [handler_bound] is [handler_with]. *)
Lemma handler_bound_typed (env : Env) (clock : Clock)
  (k8s rds app : M S3Log dict) (upload : BackupResults -> M S3Log dict)
  (event context : json) (log : S3Log) :
  handler_bound env clock (typed_step k8s) (typed_step rds) (typed_step app)
    (typed_upload upload) event context log =
  typed_answer (handler_with env clock k8s rds app upload event context log).
Proof.
  rewrite handler_bound_eq.
  unfold steps_outcome, typed_upload, typed_step.
  destruct (k8s log) as [[a | e] l1] eqn:H1.
  2: { rewrite (handler_with_escapes env clock k8s rds app upload
                  event context log e [] l1) by (now constructor).
       reflexivity. }
  destruct (rds l1) as [[b | e] l2] eqn:H2.
  2: { rewrite (handler_with_escapes env clock k8s rds app upload
                  event context log e [a] l2)
         by (now apply escapes_rds with (l1 := l1)).
       reflexivity. }
  destruct (app l2) as [[c | e] l3] eqn:H3.
  2: { rewrite (handler_with_escapes env clock k8s rds app upload
                  event context log e [a; b] l3)
         by (now apply escapes_application with (l1 := l1) (l2 := l2)).
       reflexivity. }
  change (typed_results
            (py_report env clock
               [Serialisable (JDict a); Serialisable (JDict b);
                Serialisable (JDict c)] [])
            (dictionaries
               (py_operations
                  (py_report env clock
                     [Serialisable (JDict a); Serialisable (JDict b);
                      Serialisable (JDict c)] []))))
    with (operations_so_far env clock [a; b; c]).
  destruct (upload (operations_so_far env clock [a; b; c]) l3)
    as [[d | e] l4] eqn:H4.
  - rewrite (handler_with_completes env clock k8s rds app upload
               event context log [a; b; c; d] l4)
      by (now apply completes_all with (l1 := l1) (l2 := l2) (l3 := l3)).
    reflexivity.
  - rewrite (handler_with_escapes env clock k8s rds app upload
               event context log e [a; b; c] l4)
      by (now apply escapes_upload with (l1 := l1) (l2 := l2) (l3 := l3)).
    reflexivity.
Qed.

(** C7, against the claim as stated: the entry point does raise.  A step
    bound to a stub that raises [SystemExit] is not caught by
    [except Exception], and a step bound to a stub that returns a
    dictionary holding a set makes [json.dumps] raise in the [try] block
    and again in the [except] block. *)
Lemma C7_counterexample :
  handler_bound Samples.prod Samples.at_noon
    (Samples.bound_returns (Samples.fine "kubernetes_backup"))
    (Samples.bound_raises (BaseOnly "SystemExit"))
    (Samples.bound_returns (Samples.fine "application_data_backup"))
    (fun _ => Samples.bound_returns (Samples.fine "metadata_upload"))
    JNone JNone [] = (Throw (BaseOnly "SystemExit"), []) /\
  handler_bound Samples.prod Samples.at_noon
    (Samples.bound_returns
       (OpaqueDict [("operation", JStr "kubernetes_backup");
                    ("status", JStr "SUCCESS")] (not_serializable "set")))
    (Samples.bound_returns (Samples.fine "rds_backup_verification"))
    (Samples.bound_returns (Samples.fine "application_data_backup"))
    (fun _ => Samples.bound_returns (Samples.fine "metadata_upload"))
    JNone JNone [] =
  (Throw (AnException
            (Exception "Object of type set is not JSON serializable")), []).
Proof.
  split; reflexivity.
Qed.

(** C7, as the code has it: when a step lets out an exception [e] that
    is an instance of [Exception], and the results appended so far can be
    serialised, [handler] catches it, stores [str(e)] under [error], sets
    [overall_status] to FAILED, and returns this report, with the results
    appended so far, under status code 500.  [handler] itself raises in
    two cases and no other: a step raises an exception that is not an
    instance of [Exception], or one of the results appended is refused by
    [json.dumps].  With steps that return dictionaries of JSON values and
    raise only instances of [Exception], as the steps of the module do,
    it never raises. *)
Theorem C7_catch_is_for_exceptions :
  forall env clock,
    (forall k8s rds app upload event context log e ops operations log',
        steps_outcome env clock k8s rds app upload log
        = (ops, Some (AnException e), log') ->
        all_to_json ops = Ok operations ->
        exists response,
          handler_bound env clock k8s rds app upload event context log
          = (Ok response, log') /\
          statusCode response = 500%Z /\
          report_field "backup_operations" response
          = Some (JList operations) /\
          report_field "error" response = Some (JStr (str e)) /\
          report_field "overall_status" response = Some (JStr "FAILED")) /\
    (forall k8s rds app upload event context log,
        (exists x log',
            handler_bound env clock k8s rds app upload event context log
            = (Throw x, log')) <->
        (exists ops c log',
            steps_outcome env clock k8s rds app upload log
            = (ops, Some (BaseOnly c), log')) \/
        (exists ops stop log' x,
            steps_outcome env clock k8s rds app upload log
            = (ops, stop, log') /\
            all_to_json ops = Throw x)) /\
    (forall k8s rds app upload event context log,
        exists response log',
          handler_with env clock k8s rds app upload event context log
          = (Return response, log') /\
          handler_bound env clock (typed_step k8s) (typed_step rds)
            (typed_step app) (typed_upload upload) event context log
          = (Ok response, log')).
Proof.
  intros env clock. split; [| split].
  - intros k8s rds app upload event context log e ops operations log' Hs J.
    rewrite handler_bound_eq, Hs, except_answer_cases, J.
    eexists. split; [reflexivity |]. repeat split.
  - intros k8s rds app upload event context log.
    rewrite handler_bound_eq.
    destruct (steps_outcome env clock k8s rds app upload log)
      as [[ops stop] l] eqn:Hs.
    split.
    + intros (x & log' & H).
      destruct stop as [[e | c] |].
      * rewrite except_answer_cases in H.
        destruct (all_to_json ops) as [js | y] eqn:J; [discriminate |].
        right. now exists ops, (Some (AnException e)), l, y.
      * left. now exists ops, c, l.
      * destruct (py_check_backup_health (py_report env clock ops []))
          as [health | [e | c]] eqn:C.
        -- rewrite py_dumps_cases in H.
           destruct (all_to_json ops) as [js | y] eqn:J; [discriminate |].
           right. now exists ops, None, l, y.
        -- rewrite except_answer_cases in H.
           destruct (all_to_json ops) as [js | y] eqn:J; [discriminate |].
           right. now exists ops, None, l, y.
        -- destruct (py_check_backup_health_throws _ _ C) as [e He].
           discriminate.
    + intros [(ops' & c & log' & H) | (ops' & stop' & log' & x & H & J)].
      * injection H as <- -> <-. now eexists _, _.
      * injection H as <- <- <-.
        destruct stop as [[e | c] |].
        -- rewrite except_answer_cases, J. now eexists _, _.
        -- now eexists _, _.
        -- destruct (py_check_backup_health (py_report env clock ops []))
             as [health | [e | c]].
           ++ rewrite py_dumps_cases, J. destruct x as [e | c].
              ** rewrite except_answer_cases, J. now eexists _, _.
              ** now eexists _, _.
           ++ rewrite except_answer_cases, J. now eexists _, _.
           ++ now eexists _, _.
  - intros k8s rds app upload event context log.
    destruct (handler_with_returns env clock k8s rds app upload
                event context log) as (response & log' & H).
    exists response, log'. split; [exact H |].
    rewrite handler_bound_typed, H. reflexivity.
Qed.

Lemma C7_catch_is_for_exceptions_witness :
  exists response,
    handler_bound Samples.prod Samples.at_noon
      (Samples.bound_returns (Samples.fine "kubernetes_backup"))
      (Samples.bound_raises
         (AnException (Exception "describe_db_instances timed out")))
      (Samples.bound_returns (Samples.fine "application_data_backup"))
      (fun _ => Samples.bound_returns (Samples.fine "metadata_upload"))
      JNone JNone [] = (Ok response, []) /\
    statusCode response = 500%Z /\
    report_field "backup_operations" response
    = Some (JList [JDict [("operation", JStr "kubernetes_backup");
                          ("status", JStr "SUCCESS")]]) /\
    report_field "error" response
    = Some (JStr "describe_db_instances timed out") /\
    report_field "overall_status" response = Some (JStr "FAILED").
Proof.
  apply (proj1 (C7_catch_is_for_exceptions Samples.prod Samples.at_noon)
           (Samples.bound_returns (Samples.fine "kubernetes_backup"))
           (Samples.bound_raises
              (AnException (Exception "describe_db_instances timed out")))
           (Samples.bound_returns (Samples.fine "application_data_backup"))
           (fun _ => Samples.bound_returns (Samples.fine "metadata_upload"))
           JNone JNone []
           (Exception "describe_db_instances timed out")
           [Samples.fine "kubernetes_backup"]).
  - reflexivity.
  - reflexivity.
Defined.

(* ------------------------------------------------------------------ *)
(** ** Status code and persisted copy *)

(** What [upload_backup_metadata] does: one request, always sent, and a
    result that tells the answer of S3. *)
Lemma upload_backup_metadata_run (env : Env) (aws : World) (clock : Clock)
  (r : BackupResults) (log : S3Log) :
  upload_backup_metadata env aws clock r log =
  (Return
     match s3_put_object aws (metadata_request env clock r) with
     | Return _ =>
         [("operation", JStr "metadata_upload");
          ("status", JStr "SUCCESS");
          ("location",
           JStr ("s3://" ++ S3_BUCKET env ++ "/" ++
                 Key (metadata_request env clock r)))]
     | Raise e => failed_operation "metadata_upload" e
     end,
   (log ++ [metadata_request env clock r])%list).
Proof.
  unfold upload_backup_metadata, try_except, upload_backup_metadata_try,
         bind, put_object, ret.
  destruct (s3_put_object aws (metadata_request env clock r)); reflexivity.
Qed.

Lemma health_failed_if_any (r : BackupResults) (op : dict) :
  In op (backup_operations r) ->
  is_failed op = true ->
  check_backup_health r = "FAILED".
Proof.
  intros Hin Hf. rewrite check_backup_health_cases.
  destruct (backup_operations r) as [| o os] eqn:E; [reflexivity |].
  now rewrite (existsb_intro is_failed _ op Hin Hf).
Qed.

(** C1, against the claim as stated: S3 refuses the report, no exception
    leaves any step, the report ends FAILED, and the status code is 200,
    not 500. *)
Lemma C1_counterexample :
  (forall r,
      s3_put_object (Samples.report_write_denied [Samples.db_main])
        (metadata_request Samples.prod Samples.at_noon r)
      = Raise (Exception "AccessDenied")) /\
  exists response log,
    handler Samples.prod (Samples.report_write_denied [Samples.db_main])
      Samples.at_noon JNone JNone [] = (Return response, log) /\
    report_field "overall_status" response = Some (JStr "FAILED") /\
    report_field "error" response = None /\
    statusCode response = 200%Z /\
    statusCode response <> 500%Z.
Proof.
  split; [reflexivity |].
  eexists _, _. split; [reflexivity |].
  repeat split. discriminate.
Qed.

(** C1, as the code has it: in a run of [handler] whose steps returned
    [a], [b], [c], [d], when S3 refuses the report that the metadata step
    builds from the first three, [d] is the FAILED result of that step and
    [handler] returns status code 200 with a report whose [overall_status]
    is FAILED.  In general the status code tells whether an exception
    reached the [except] block, not what the health is.  Over any binding
    of the steps, a response with status code 200 means that the four
    steps returned and that the health of their results could be
    computed, and [overall_status] is this health, whatever it is; a
    response with status code 500 means that an instance of [Exception]
    reached the [except] block, raised by a step or by the health
    evaluation on a result that is not a dictionary, and
    [overall_status] is FAILED.  Conversely, when the four steps return
    results that can be serialised, [handler] returns a response: with
    status code 200 if the health can be computed, with status code 500
    if not. *)
Theorem C1_status_code_follows_the_catch :
  forall env clock,
    (forall aws e event context log a b c d log',
        completes env clock
          (backup_kubernetes_resources env aws clock)
          (verify_rds_backups env aws)
          (backup_application_data env aws clock)
          (upload_backup_metadata env aws clock)
          log [a; b; c; d] log' ->
        s3_put_object aws
          (metadata_request env clock (operations_so_far env clock [a; b; c]))
        = Raise e ->
        exists response,
          handler env aws clock event context log = (Return response, log') /\
          d = failed_operation "metadata_upload" e /\
          statusCode response = 200%Z /\
          report_of response
          = results_json (completed env clock [a; b; c; d]) /\
          report_field "overall_status" response = Some (JStr "FAILED") /\
          report_field "error" response = None) /\
    (forall k8s rds app upload event context log response log',
        handler_bound env clock k8s rds app upload event context log
        = (Ok response, log') ->
        (statusCode response = 200%Z /\
         exists ops health,
           steps_outcome env clock k8s rds app upload log
           = (ops, None, log') /\
           py_check_backup_health (py_report env clock ops []) = Ok health /\
           report_field "overall_status" response = Some (JStr health) /\
           report_field "error" response = None) \/
        (statusCode response = 500%Z /\
         exists e ops,
           (steps_outcome env clock k8s rds app upload log
            = (ops, Some (AnException e), log') \/
            (steps_outcome env clock k8s rds app upload log
             = (ops, None, log') /\
             py_check_backup_health (py_report env clock ops [])
             = Throw (AnException e))) /\
           report_field "error" response = Some (JStr (str e)) /\
           report_field "overall_status" response = Some (JStr "FAILED"))) /\
    (forall k8s rds app upload event context log ops operations log',
        steps_outcome env clock k8s rds app upload log = (ops, None, log') ->
        all_to_json ops = Ok operations ->
        exists response,
          handler_bound env clock k8s rds app upload event context log
          = (Ok response, log') /\
          report_field "backup_operations" response
          = Some (JList operations) /\
          match py_check_backup_health (py_report env clock ops []) with
          | Ok health =>
              statusCode response = 200%Z /\
              report_field "overall_status" response = Some (JStr health) /\
              report_field "error" response = None
          | Throw _ =>
              statusCode response = 500%Z /\
              report_field "overall_status" response = Some (JStr "FAILED")
          end).
Proof.
  intros env clock. split; [| split].
  - intros aws e event context log a b c d log' Hrun Hfail.
    eexists. split.
    + unfold handler. apply handler_with_completes. exact Hrun.
    + inversion Hrun as [a' b' c' d' l1 l2 l3 l4 H1 H2 H3 H4 Eops El]. subst.
      rewrite upload_backup_metadata_run, Hfail in H4.
      injection H4 as Hd _. subst d.
      split; [reflexivity |]. split; [reflexivity |].
      split; [reflexivity |]. split; [| reflexivity].
      unfold report_field, report_of, completed. simpl.
      rewrite (health_failed_if_any _
                 (failed_operation "metadata_upload" e)).
      * reflexivity.
      * simpl. auto.
      * reflexivity.
  - intros k8s rds app upload event context log response log'.
    rewrite handler_bound_eq.
    destruct (steps_outcome env clock k8s rds app upload log)
      as [[ops stop] l] eqn:Hs.
    destruct stop as [[e | c] |].
    + rewrite except_answer_cases.
      destruct (all_to_json ops) as [js | y]; [| discriminate].
      intro H. injection H as <- <-.
      right. split; [reflexivity |]. exists e, ops.
      split; [left; reflexivity |]. split; reflexivity.
    + discriminate.
    + destruct (py_check_backup_health (py_report env clock ops []))
        as [health | [e | c]] eqn:C.
      * rewrite py_dumps_cases.
        destruct (all_to_json ops) as [js | [e | c]] eqn:J.
        -- intro H. injection H as <- <-.
           left. split; [reflexivity |]. exists ops, health.
           split; [reflexivity |]. split; [exact C |]. split; reflexivity.
        -- rewrite except_answer_cases, J. discriminate.
        -- discriminate.
      * rewrite except_answer_cases.
        destruct (all_to_json ops) as [js | y]; [| discriminate].
        intro H. injection H as <- <-.
        right. split; [reflexivity |]. exists e, ops.
        split; [right; split; [reflexivity | exact C] |]. split; reflexivity.
      * discriminate.
  - intros k8s rds app upload event context log ops operations log' Hs J.
    rewrite handler_bound_eq, Hs.
    destruct (py_check_backup_health (py_report env clock ops []))
      as [health | [e | c]] eqn:C.
    + rewrite py_dumps_cases, J. eexists. split; [reflexivity |].
      repeat split.
    + rewrite except_answer_cases, J. eexists. split; [reflexivity |].
      repeat split.
    + destruct (py_check_backup_health_throws _ _ C) as [e He].
      discriminate.
Qed.

Lemma C1_status_code_follows_the_catch_witness :
  (exists response log,
      handler Samples.prod (Samples.report_write_denied [Samples.db_main])
        Samples.next_day JNone JNone [] = (Return response, log) /\
      statusCode response = 200%Z /\
      report_field "overall_status" response = Some (JStr "FAILED") /\
      report_field "error" response = None) /\
  (exists response,
      handler_bound Samples.prod Samples.at_noon
        (Samples.bound_returns (Samples.fine "kubernetes_backup"))
        (Samples.bound_returns (Serialisable JNone))
        (Samples.bound_returns (Samples.fine "application_data_backup"))
        (fun _ => Samples.bound_returns (Samples.fine "metadata_upload"))
        JNone JNone [] = (Ok response, []) /\
      statusCode response = 500%Z /\
      report_field "error" response
      = Some (JStr "'NoneType' object has no attribute 'get'")).
Proof.
  split.
  - destruct (handler_completes Samples.prod
                (Samples.report_write_denied [Samples.db_main])
                Samples.next_day [])
      as (a & b & c & d & log' & Hrun & _).
    destruct (proj1 (C1_status_code_follows_the_catch
                       Samples.prod Samples.next_day)
                (Samples.report_write_denied [Samples.db_main])
                (Exception "AccessDenied") JNone JNone [] a b c d log' Hrun
                eq_refl)
      as (response & H & _ & Hcode & _ & Hstatus & Herror).
    exists response, log'. repeat split; assumption.
  - eexists. split; [reflexivity |].
    destruct (proj1 (proj2 (C1_status_code_follows_the_catch
                              Samples.prod Samples.at_noon))
                (Samples.bound_returns (Samples.fine "kubernetes_backup"))
                (Samples.bound_returns (Serialisable JNone))
                (Samples.bound_returns
                   (Samples.fine "application_data_backup"))
                (fun _ => Samples.bound_returns
                            (Samples.fine "metadata_upload"))
                JNone JNone [] _ [] eq_refl)
      as [[Hcode _] | [Hcode _]].
    + discriminate Hcode.
    + split; [exact Hcode | reflexivity].
Defined.

(** C2, against the claim as stated: in a run where every client answers,
    the copy of the report that S3 accepts has no [overall_status], while
    the returned report has one. *)
Lemma C2_counterexample :
  exists response log request,
    handler Samples.prod (Samples.all_well [Samples.db_main])
      Samples.at_noon JNone JNone [] = (Return response, log) /\
    length log = 3 /\
    nth_error log 2 = Some request /\
    Key request = "backup-reports/prod/20250309-120007/backup-report.json" /\
    s3_put_object (Samples.all_well [Samples.db_main]) request = Return tt /\
    persisted_field "overall_status" request = None /\
    report_field "overall_status" response = Some (JStr "SUCCESS").
Proof.
  eexists _, _, _. split; [reflexivity |].
  split; [reflexivity |]. split; [reflexivity |].
  repeat split.
Qed.

(** C2, as the code has it: in every run of [handler] the report is
    handed to S3 by the metadata step, after the first three results are
    appended and before the health is computed.  The copy handed over has
    no [overall_status]; the returned report is this copy with the
    result of the metadata step appended and [overall_status] set to the
    health of the four results. *)
Theorem C2_report_is_persisted_before_health :
  forall env aws clock event context log,
    exists a b c d earlier,
      handler env aws clock event context log =
      (Return {| statusCode := 200;
                 body := Dumps None
                           (results_json
                              (completed env clock [a; b; c; d])) |},
       (earlier ++
        [metadata_request env clock (operations_so_far env clock [a; b; c])])
       %list) /\
      dict_get "operation" d = Some (JStr "metadata_upload") /\
      Body (metadata_request env clock (operations_so_far env clock [a; b; c]))
      = Dumps (Some 2) (results_json (operations_so_far env clock [a; b; c])) /\
      backup_operations (operations_so_far env clock [a; b; c]) = [a; b; c] /\
      overall_status (operations_so_far env clock [a; b; c]) = None /\
      persisted_field "overall_status"
        (metadata_request env clock (operations_so_far env clock [a; b; c]))
      = None /\
      completed env clock [a; b; c; d] =
      set_overall_status
        (check_backup_health
           (append_operation d (operations_so_far env clock [a; b; c])))
        (append_operation d (operations_so_far env clock [a; b; c])).
Proof.
  intros env aws clock event context log.
  destruct (handler_completes env aws clock log)
    as (a & b & c & d & log' & Hrun & _ & _ & _ & Nd).
  inversion Hrun as [a' b' c' d' l1 l2 l3 l4 H1 H2 H3 H4 Eops El]. subst.
  pose proof H4 as H4'.
  rewrite upload_backup_metadata_run in H4'.
  injection H4' as _ Hlog.
  exists a, b, c, d, l3. split.
  - unfold handler. rewrite Hlog. apply handler_with_completes. exact Hrun.
  - repeat split. exact Nd.
Qed.

(* ------------------------------------------------------------------ *)
(** ** Two runs at different times *)

(** C8, against the claim as stated: two runs with the same environment
    and the same client answers, at two different times, return reports
    that still differ once their time stamp fields are erased, because the
    S3 locations in the step results embed the time. *)
Lemma C8_counterexample :
  exists response1 response2 log1 log2,
    handler Samples.prod (Samples.all_well [Samples.db_main])
      Samples.at_noon JNone JNone [] = (Return response1, log1) /\
    handler Samples.prod (Samples.all_well [Samples.db_main])
      Samples.next_day JNone JNone [] = (Return response2, log2) /\
    erase_keys timestamp_fields (report_of response1) <>
    erase_keys timestamp_fields (report_of response2).
Proof.
  eexists _, _, _, _. split; [reflexivity |]. split; [reflexivity |].
  vm_compute. discriminate.
Qed.

Lemma readonly_ret {A : Type} (a : A) : readonly (ret a).
Proof.
  exists (Return a). reflexivity.
Qed.

Lemma readonly_call {A : Type} (answer : outcome A) :
  readonly (call answer).
Proof.
  exists answer. reflexivity.
Qed.

Lemma readonly_bind {A B : Type} (m : M S3Log A) (k : A -> M S3Log B) :
  readonly m -> (forall a, readonly (k a)) -> readonly (bind m k).
Proof.
  intros [[a | e] Hm] Hk.
  - destruct (Hk a) as [answer Ha]. exists answer. intro log.
    unfold bind. now rewrite Hm, Ha.
  - exists (Raise e). intro log. unfold bind. now rewrite Hm.
Qed.

Lemma readonly_try_except {A : Type} (body : M S3Log A)
  (handle : exn -> M S3Log A) :
  readonly body -> (forall e, readonly (handle e)) ->
  readonly (try_except body handle).
Proof.
  intros [[a | e] Hb] Hh.
  - exists (Return a). intro log. unfold try_except. now rewrite Hb.
  - destruct (Hh e) as [answer He]. exists answer. intro log.
    unfold try_except. now rewrite Hb, He.
Qed.

Lemma instance_backup_status_readonly (aws : World) (i : DBInstance) :
  readonly (instance_backup_status aws i).
Proof.
  unfold instance_backup_status.
  destruct (retention i >? 0)%Z.
  - apply readonly_bind; [apply readonly_call |].
    intro snapshots. apply readonly_ret.
  - apply readonly_ret.
Qed.

Lemma collect_backup_status_readonly (aws : World) (l : list DBInstance) :
  readonly (collect_backup_status aws l).
Proof.
  induction l as [| i l IH]; simpl.
  - apply readonly_ret.
  - apply readonly_bind; [apply instance_backup_status_readonly |].
    intro entry. apply readonly_bind; [exact IH |].
    intro entries. apply readonly_ret.
Qed.

Lemma verify_rds_backups_readonly (env : Env) (aws : World) :
  readonly (verify_rds_backups env aws).
Proof.
  unfold verify_rds_backups, verify_rds_backups_try.
  apply readonly_try_except.
  - apply readonly_bind; [apply readonly_call |].
    intro instances.
    apply readonly_bind; [apply collect_backup_status_readonly |].
    intro entries. apply readonly_ret.
  - intro e. apply readonly_ret.
Qed.

Lemma verify_rds_backups_answer (env : Env) (aws : World) :
  exists result, forall log,
      verify_rds_backups env aws log = (Return result, log).
Proof.
  destruct (verify_rds_backups_readonly env aws) as [answer H].
  destruct (proj1 (verify_rds_backups_isolated env aws []))
    as (result & log' & Hrun & _).
  rewrite H in Hrun. injection Hrun as -> _.
  exists result. exact H.
Qed.

Section TwoClocks.

Variable env : Env.
Variable aws : World.
Variables clock1 clock2 : Clock.
Hypothesis s3_fixed : fixed_answer aws.

Lemma s3_answer :
  exists answer, forall request, s3_put_object aws request = answer.
Proof.
  exists (s3_put_object aws
            {| Bucket := ""; Key := ""; Body := Dumps None JNone;
               ContentType := "" |}).
  intro request. apply s3_fixed.
Qed.

Lemma backup_kubernetes_resources_similar (log1 log2 : S3Log) :
  exists a1 a2 l1 l2,
    backup_kubernetes_resources env aws clock1 log1 = (Return a1, l1) /\
    backup_kubernetes_resources env aws clock2 log2 = (Return a2, l2) /\
    similar a1 a2.
Proof.
  destruct s3_answer as [answer Hs].
  unfold backup_kubernetes_resources, try_except,
         backup_kubernetes_resources_try, bind, call, put_object, ret.
  destruct (describe_cluster aws (CLUSTER_NAME env)) as [status | e].
  - destruct (negb (status =? "ACTIVE")%string).
    + eexists _, _, _, _. repeat split.
    + rewrite !Hs. destruct answer as [u | e];
        eexists _, _, _, _; repeat split.
  - eexists _, _, _, _. repeat split.
Qed.

Lemma backup_application_data_similar (log1 log2 : S3Log) :
  exists c1 c2 l1 l2,
    backup_application_data env aws clock1 log1 = (Return c1, l1) /\
    backup_application_data env aws clock2 log2 = (Return c2, l2) /\
    similar c1 c2.
Proof.
  destruct s3_answer as [answer Hs].
  unfold backup_application_data, try_except,
         backup_application_data_try, bind, put_object, ret.
  rewrite !Hs. destruct answer as [u | e];
    eexists _, _, _, _; repeat split.
Qed.

Lemma upload_backup_metadata_similar (r1 r2 : BackupResults)
  (log1 log2 : S3Log) :
  exists d1 d2 l1 l2,
    upload_backup_metadata env aws clock1 r1 log1 = (Return d1, l1) /\
    upload_backup_metadata env aws clock2 r2 log2 = (Return d2, l2) /\
    similar d1 d2.
Proof.
  destruct s3_answer as [answer Hs].
  rewrite !upload_backup_metadata_run, !Hs.
  destruct answer as [u | e]; eexists _, _, _, _; repeat split.
Qed.

Lemma erase_completed (clock : Clock) (a b c d : dict) :
  erase_keys clock_fields (results_json (completed env clock [a; b; c; d])) =
  JDict [("environment", JStr (ENVIRONMENT env));
         ("cluster_name", JStr (CLUSTER_NAME env));
         ("backup_operations",
          JList [erase_keys clock_fields (JDict a);
                 erase_keys clock_fields (JDict b);
                 erase_keys clock_fields (JDict c);
                 erase_keys clock_fields (JDict d)]);
         ("overall_status",
          JStr (check_backup_health
                  (operations_so_far env clock [a; b; c; d])))].
Proof.
  reflexivity.
Qed.

Lemma health_similar (a1 a2 b c1 c2 d1 d2 : dict) :
  similar a1 a2 -> similar c1 c2 -> similar d1 d2 ->
  check_backup_health (operations_so_far env clock1 [a1; b; c1; d1]) =
  check_backup_health (operations_so_far env clock2 [a2; b; c2; d2]).
Proof.
  intros [_ Ha] [_ Hc] [_ Hd].
  rewrite !check_backup_health_cases. simpl.
  unfold is_failed, is_warning. now rewrite !Ha, !Hc, !Hd.
Qed.

End TwoClocks.

(** With stubbed steps, the report is the same at any two times but for
    its [timestamp]. *)
Lemma stubbed_steps_agree (env : Env) (clock1 clock2 : Clock)
  (k8s rds app : M S3Log dict) (upload : BackupResults -> M S3Log dict)
  (event context : json) (log1 log2 : S3Log) :
  stubbed k8s -> stubbed rds -> stubbed app -> stubbed_upload upload ->
  exists code r1 r2,
    handler_with env clock1 k8s rds app upload event context log1 =
    (Return {| statusCode := code; body := Dumps None (results_json r1) |},
     log1) /\
    handler_with env clock2 k8s rds app upload event context log2 =
    (Return {| statusCode := code; body := Dumps None (results_json r2) |},
     log2) /\
    timestamp r1 = isoformat (now_handler clock1) /\
    r2 = with_timestamp (isoformat (now_handler clock2)) r1.
Proof.
  intros [ak Hk] [ar Hr] [aa Ha] [au Hu].
  unfold handler_with, try_except, handler_try, handler_except,
         bind, run_step, on_results, modify, get, ret; simpl.
  rewrite !Hk. destruct ak as [a | e]; simpl.
  2: { eexists _, _, _. repeat split. }
  rewrite !Hr. destruct ar as [b | e]; simpl.
  2: { eexists _, _, _. repeat split. }
  rewrite !Ha. destruct aa as [c | e]; simpl.
  2: { eexists _, _, _. repeat split. }
  rewrite !Hu. destruct au as [d | e]; simpl.
  2: { eexists _, _, _. repeat split. }
  eexists _, _, _. split; [reflexivity |].
  split; [| split; reflexivity].
  reflexivity.
Qed.

(** C8, as the code has it: two runs of [handler] with the same
    environment and the same client answers, the S3 client being stubbed
    to one fixed answer, at any two times, both return status code 200
    and reports that are equal once the keys computed from the clock are
    erased: [timestamp], [backup_timestamp], and the S3 locations
    [backup_location] and [location].  When the step functions themselves
    are stubbed to fixed results, the two reports are equal but for
    [timestamp]. *)
Theorem C8_reports_agree_up_to_clock :
  (forall env aws clock1 clock2 event context log1 log2,
      fixed_answer aws ->
      exists response1 response2 log1' log2',
        handler env aws clock1 event context log1
        = (Return response1, log1') /\
        handler env aws clock2 event context log2
        = (Return response2, log2') /\
        statusCode response1 = 200%Z /\
        statusCode response2 = 200%Z /\
        erase_keys clock_fields (report_of response1) =
        erase_keys clock_fields (report_of response2)) /\
  (forall env clock1 clock2 k8s rds app upload event context log1 log2,
      stubbed k8s -> stubbed rds -> stubbed app -> stubbed_upload upload ->
      exists response1 response2 r1 r2,
        handler_with env clock1 k8s rds app upload event context log1
        = (Return response1, log1) /\
        handler_with env clock2 k8s rds app upload event context log2
        = (Return response2, log2) /\
        statusCode response1 = statusCode response2 /\
        report_of response1 = results_json r1 /\
        report_of response2 = results_json r2 /\
        r2 = with_timestamp (isoformat (now_handler clock2)) r1).
Proof.
  split.
  - intros env aws clock1 clock2 event context log1 log2 Hs.
    destruct (backup_kubernetes_resources_similar env aws clock1 clock2 Hs
                log1 log2) as (a1 & a2 & k1 & k2 & Ha1 & Ha2 & Sa).
    destruct (verify_rds_backups_answer env aws) as (b & Hb).
    destruct (backup_application_data_similar env aws clock1 clock2 Hs
                k1 k2) as (c1 & c2 & m1 & m2 & Hc1 & Hc2 & Sc).
    destruct (upload_backup_metadata_similar env aws clock1 clock2 Hs
                (operations_so_far env clock1 [a1; b; c1])
                (operations_so_far env clock2 [a2; b; c2]) m1 m2)
      as (d1 & d2 & n1 & n2 & Hd1 & Hd2 & Sd).
    eexists _, _, n1, n2.
    split.
    { unfold handler. apply handler_with_completes.
      apply completes_all with (l1 := k1) (l2 := k1) (l3 := m1);
        [exact Ha1 | apply Hb | exact Hc1 | exact Hd1]. }
    split.
    { unfold handler. apply handler_with_completes.
      apply completes_all with (l1 := k2) (l2 := k2) (l3 := m2);
        [exact Ha2 | apply Hb | exact Hc2 | exact Hd2]. }
    split; [reflexivity |]. split; [reflexivity |].
    unfold report_of. simpl loads.
    rewrite !erase_completed.
    rewrite (health_similar env clock1 clock2 a1 a2 b c1 c2 d1 d2 Sa Sc Sd).
    destruct Sa as [-> _], Sc as [-> _], Sd as [-> _]. reflexivity.
  - intros env clock1 clock2 k8s rds app upload event context log1 log2
           Hk Hr Ha Hu.
    destruct (stubbed_steps_agree env clock1 clock2 k8s rds app upload
                event context log1 log2 Hk Hr Ha Hu)
      as (code & r1 & r2 & H1 & H2 & _ & E).
    eexists _, _, r1, r2.
    split; [exact H1 |]. split; [exact H2 |].
    repeat split. exact E.
Qed.

Lemma C8_reports_agree_up_to_clock_witness :
  (exists response1 response2 log1 log2,
      handler Samples.prod (Samples.all_well [Samples.db_main])
        Samples.at_noon JNone JNone [] = (Return response1, log1) /\
      handler Samples.prod (Samples.all_well [Samples.db_main])
        Samples.next_day JNone JNone [] = (Return response2, log2) /\
      statusCode response1 = 200%Z /\
      statusCode response2 = 200%Z /\
      erase_keys clock_fields (report_of response1) =
      erase_keys clock_fields (report_of response2)) /\
  (exists response1 response2 r1 r2,
      handler_with Samples.prod Samples.at_noon
        (Samples.stub_returns "kubernetes_backup" "SKIPPED")
        (Samples.stub_returns "rds_backup_verification" "WARNING")
        (Samples.stub_returns "application_data_backup" "SUCCESS")
        (fun _ => Samples.stub_returns "metadata_upload" "SUCCESS")
        JNone JNone [] = (Return response1, []) /\
      handler_with Samples.prod Samples.next_day
        (Samples.stub_returns "kubernetes_backup" "SKIPPED")
        (Samples.stub_returns "rds_backup_verification" "WARNING")
        (Samples.stub_returns "application_data_backup" "SUCCESS")
        (fun _ => Samples.stub_returns "metadata_upload" "SUCCESS")
        JNone JNone [] = (Return response2, []) /\
      statusCode response1 = statusCode response2 /\
      report_of response1 = results_json r1 /\
      report_of response2 = results_json r2 /\
      r2 = with_timestamp (isoformat (now_handler Samples.next_day)) r1).
Proof.
  split.
  - apply (proj1 C8_reports_agree_up_to_clock Samples.prod
             (Samples.all_well [Samples.db_main])
             Samples.at_noon Samples.next_day JNone JNone [] []).
    intros request request'. reflexivity.
  - apply (proj2 C8_reports_agree_up_to_clock Samples.prod
             Samples.at_noon Samples.next_day).
    + eexists. intro log. reflexivity.
    + eexists. intro log. reflexivity.
    + eexists. intro log. reflexivity.
    + eexists. intros r log. reflexivity.
Defined.

(* ------------------------------------------------------------------ *)
(** ** Further properties: health evaluation *)

Lemma some_failed_iff (ops : list dict) :
  existsb is_failed ops = true <->
  exists op, In op ops /\ dict_get "status" op = Some (JStr "FAILED").
Proof.
  rewrite existsb_exists. split; intros [op [Hin H]]; exists op;
    (split; [exact Hin |]); now apply get_equals_true.
Qed.

Lemma some_warning_iff (ops : list dict) :
  existsb is_warning ops = true <->
  exists op, In op ops /\ dict_get "status" op = Some (JStr "WARNING").
Proof.
  rewrite existsb_exists. split; intros [op [Hin H]]; exists op;
    (split; [exact Hin |]); now apply get_equals_true.
Qed.

Lemma none_failed_iff (ops : list dict) :
  existsb is_failed ops = false <->
  forall op, In op ops -> dict_get "status" op <> Some (JStr "FAILED").
Proof.
  rewrite existsb_false_forall. split; intros H op Hin.
  - apply get_equals_false. exact (H op Hin).
  - apply get_equals_false. exact (H op Hin).
Qed.

Lemma none_warning_iff (ops : list dict) :
  existsb is_warning ops = false <->
  forall op, In op ops -> dict_get "status" op <> Some (JStr "WARNING").
Proof.
  rewrite existsb_false_forall. split; intros H op Hin.
  - apply get_equals_false. exact (H op Hin).
  - apply get_equals_false. exact (H op Hin).
Qed.

(** X1: the three answers of [check_backup_health], each with the exact
    condition under which it is given. *)
Theorem health_exact :
  forall r,
    (check_backup_health r = "FAILED" <->
     backup_operations r = [] \/
     exists op, In op (backup_operations r) /\
                dict_get "status" op = Some (JStr "FAILED")) /\
    (check_backup_health r = "WARNING" <->
     (forall op, In op (backup_operations r) ->
                 dict_get "status" op <> Some (JStr "FAILED")) /\
     exists op, In op (backup_operations r) /\
                dict_get "status" op = Some (JStr "WARNING")) /\
    (check_backup_health r = "SUCCESS" <->
     backup_operations r <> [] /\
     forall op, In op (backup_operations r) ->
                dict_get "status" op <> Some (JStr "FAILED") /\
                dict_get "status" op <> Some (JStr "WARNING")).
Proof.
  intro r. rewrite check_backup_health_cases.
  destruct (backup_operations r) as [| o os] eqn:E.
  - split; [| split].
    + split; auto.
    + split; [discriminate |]. intros [_ [op [[] _]]].
    + split; [discriminate |]. intros [H _]. congruence.
  - destruct (existsb is_failed (o :: os)) eqn:F.
    + pose proof (proj1 (some_failed_iff _) F) as [op [Hin Hf]].
      split; [| split].
      * split; [| reflexivity]. intros _. right. now exists op.
      * split; [discriminate |]. intros [H _]. exfalso. exact (H op Hin Hf).
      * split; [discriminate |]. intros [_ H]. exfalso.
        exact (proj1 (H op Hin) Hf).
    + pose proof (proj1 (none_failed_iff _) F) as Hnf.
      destruct (existsb is_warning (o :: os)) eqn:W.
      * pose proof (proj1 (some_warning_iff _) W) as [op [Hin Hw]].
        split; [| split].
        -- split; [discriminate |].
           intros [H | [op' [Hin' Hf]]]; [discriminate |].
           exfalso. exact (Hnf op' Hin' Hf).
        -- split; [| reflexivity]. intros _. split; [exact Hnf |]. now exists op.
        -- split; [discriminate |]. intros [_ H]. exfalso.
           exact (proj2 (H op Hin) Hw).
      * pose proof (proj1 (none_warning_iff _) W) as Hnw.
        split; [| split].
        -- split; [discriminate |].
           intros [H | [op' [Hin' Hf]]]; [discriminate |].
           exfalso. exact (Hnf op' Hin' Hf).
        -- split; [discriminate |]. intros [_ [op [Hin Hw]]]. exfalso.
           exact (Hnw op Hin Hw).
        -- split; [| reflexivity]. intros _. split; [discriminate |].
           intros op Hin. split; [exact (Hnf op Hin) | exact (Hnw op Hin)].
Qed.

Lemma health_exact_witness :
  check_backup_health
    (Samples.report_of_operations
       [Samples.with_status "SUCCESS"; Samples.with_status "WARNING"])
  = "WARNING".
Proof.
  apply (proj1 (proj2 (health_exact
           (Samples.report_of_operations
              [Samples.with_status "SUCCESS";
               Samples.with_status "WARNING"])))).
  split.
  - simpl. intros op [<- | [<- | []]]; discriminate.
  - exists (Samples.with_status "WARNING"). simpl. auto.
Defined.

Lemma existsb_permutation {A : Type} (f : A -> bool) (l l' : list A) :
  Permutation l l' -> existsb f l = existsb f l'.
Proof.
  induction 1 as [| x l l' _ IH | x y l | l l' l'' _ IH1 _ IH2]; simpl.
  - reflexivity.
  - now rewrite IH.
  - destruct (f x), (f y); reflexivity.
  - now rewrite IH1.
Qed.

(** X2: the health of a report does not depend on the order in which the
    step results were appended. *)
Theorem health_ignores_order :
  forall r r',
    Permutation (backup_operations r) (backup_operations r') ->
    check_backup_health r = check_backup_health r'.
Proof.
  intros r r' P. rewrite !check_backup_health_cases.
  rewrite (existsb_permutation is_failed _ _ P).
  rewrite (existsb_permutation is_warning _ _ P).
  destruct (backup_operations r) as [| o os].
  - apply Permutation_nil in P. now rewrite P.
  - destruct (backup_operations r') as [| o' os']; [| reflexivity].
    apply Permutation_sym, Permutation_nil in P. discriminate.
Qed.

Lemma health_ignores_order_witness :
  check_backup_health
    (Samples.report_of_operations
       [Samples.with_status "SUCCESS"; Samples.with_status "WARNING"]) =
  check_backup_health
    (Samples.report_of_operations
       [Samples.with_status "WARNING"; Samples.with_status "SUCCESS"]).
Proof.
  apply health_ignores_order. simpl. apply perm_swap.
Defined.

(** X3: appending further results to a report that already holds some
    never improves its health: FAILED stays FAILED, and WARNING stays
    WARNING or becomes FAILED.  For the report with no result yet this
    fails: its health is FAILED and one SUCCESS result makes it
    SUCCESS. *)
Theorem health_never_improves :
  (forall r r' more,
      backup_operations r <> [] ->
      backup_operations r' = (backup_operations r ++ more)%list ->
      (check_backup_health r = "FAILED" ->
       check_backup_health r' = "FAILED") /\
      (check_backup_health r = "WARNING" ->
       check_backup_health r' = "WARNING" \/
       check_backup_health r' = "FAILED")) /\
  (forall r r' op,
      backup_operations r = [] ->
      backup_operations r' = [op] ->
      dict_get "status" op = Some (JStr "SUCCESS") ->
      check_backup_health r = "FAILED" /\
      check_backup_health r' = "SUCCESS").
Proof.
  split.
  - intros r r' more Hne E. rewrite !check_backup_health_cases, E.
    rewrite !existsb_app.
    destruct (backup_operations r) as [| o os]; [congruence |].
    destruct ((o :: os) ++ more)%list eqn:A; [discriminate |].
    destruct (existsb is_failed (o :: os));
      destruct (existsb is_warning (o :: os));
      destruct (existsb is_failed more); simpl;
      split; try discriminate; auto.
  - intros r r' op E E' Hs. rewrite !check_backup_health_cases, E, E'.
    split; [reflexivity |]. simpl.
    unfold is_failed, is_warning, get_equals. rewrite Hs. reflexivity.
Qed.

Lemma health_never_improves_witness :
  check_backup_health
    (Samples.report_of_operations
       [Samples.with_status "FAILED"; Samples.with_status "SUCCESS"])
  = "FAILED" /\
  check_backup_health
    (Samples.report_of_operations [Samples.with_status "SUCCESS"])
  = "SUCCESS".
Proof.
  split.
  - apply (proj1 health_never_improves
             (Samples.report_of_operations [Samples.with_status "FAILED"])
             (Samples.report_of_operations
                [Samples.with_status "FAILED"; Samples.with_status "SUCCESS"])
             [Samples.with_status "SUCCESS"]).
    + discriminate.
    + reflexivity.
    + reflexivity.
  - apply (proj2 health_never_improves Samples.empty_report
             (Samples.report_of_operations [Samples.with_status "SUCCESS"])
             (Samples.with_status "SUCCESS")); reflexivity.
Defined.

(* ------------------------------------------------------------------ *)
(** ** Further properties: which instances are verified *)

Lemma prefix_iff (needle hay : string) :
  String.prefix needle hay = true <-> exists rest, hay = needle ++ rest.
Proof.
  revert hay. induction needle as [| a needle IH]; intro hay.
  - split; [intros _; now exists hay | destruct hay; reflexivity].
  - destruct hay as [| b hay]; simpl.
    + split; [discriminate | intros [rest H]; discriminate].
    + destruct (ascii_dec a b) as [-> | Hab].
      * rewrite IH. split; intros [rest H]; exists rest.
        -- now rewrite H.
        -- now injection H.
      * split; [discriminate |]. intros [rest H]. injection H as Hb _.
        congruence.
Qed.

Lemma contains_iff (needle hay : string) :
  contains needle hay = true <->
  exists before after, hay = before ++ needle ++ after.
Proof.
  induction hay as [| c hay IH].
  - change (contains needle "") with (String.prefix needle "" || false).
    rewrite orb_false_r, prefix_iff. split.
    + intros [rest H]. now exists "", rest.
    + intros [before [after H]]. destruct before; [now exists after |].
      discriminate.
  - change (contains needle (String c hay))
      with (String.prefix needle (String c hay) || contains needle hay).
    rewrite orb_true_iff, prefix_iff, IH. split.
    + intros [[rest H] | [before [after H]]].
      * now exists "", rest.
      * exists (String c before), after. simpl. now rewrite H.
    + intros [before [after H]]. destruct before as [| b before].
      * left. now exists after.
      * right. exists before, after. simpl in H. now injection H.
Qed.

(** X4: the verification step takes an instance for one of its own
    exactly when the environment name occurs somewhere in its identifier;
    with an empty environment name it takes every instance. *)
Theorem managed_instance_is_substring_match :
  forall env,
    (forall i,
        is_agentscan_instance env i = true <->
        exists before after,
          DBInstanceIdentifier i = before ++ ENVIRONMENT env ++ after) /\
    (ENVIRONMENT env = "" -> forall i, is_agentscan_instance env i = true).
Proof.
  intro env. split.
  - intro i. apply contains_iff.
  - intros E i. unfold is_agentscan_instance. rewrite E.
    destruct (DBInstanceIdentifier i); reflexivity.
Qed.

Lemma managed_instance_is_substring_match_witness :
  is_agentscan_instance
    {| CLUSTER_NAME := "main"; S3_BUCKET := "backups"; ENVIRONMENT := "" |}
    Samples.db_staging = true.
Proof.
  apply (proj2 (managed_instance_is_substring_match
                  {| CLUSTER_NAME := "main"; S3_BUCKET := "backups";
                     ENVIRONMENT := "" |})).
  reflexivity.
Defined.

Lemma instance_backup_status_runs (aws : World) (i : DBInstance)
  (log : S3Log) :
  (exists e, instance_backup_status aws i log = (Raise e, log)) \/
  (exists entry, instance_backup_status aws i log = (Return entry, log)).
Proof.
  destruct (instance_backup_status_readonly aws i) as [[entry | e] H].
  - right. exists entry. apply H.
  - left. exists e. apply H.
Qed.

Lemma collect_backup_status_runs (aws : World) (l : list DBInstance)
  (log : S3Log) :
  (exists e, collect_backup_status aws l log = (Raise e, log)) \/
  (exists entries, collect_backup_status aws l log = (Return entries, log)).
Proof.
  destruct (collect_backup_status_readonly aws l) as [[entries | e] H].
  - right. exists entries. apply H.
  - left. exists e. apply H.
Qed.

Lemma backed_up_dec (aws : World) (i : DBInstance) :
  backed_up aws i \/ ~ backed_up aws i.
Proof.
  unfold backed_up.
  destruct (Z_lt_dec 0 (retention i)) as [Hr | Hr].
  - destruct (describe_db_snapshots aws (DBInstanceIdentifier i))
      as [snapshots | e] eqn:E.
    + left. split; [exact Hr | now exists snapshots].
    + right. intros [_ [snapshots H]]. discriminate.
  - right. intros [H _]. contradiction.
Qed.

Lemma backed_up_entry (aws : World) (i : DBInstance) (log : S3Log) :
  backed_up aws i ->
  exists entry,
    instance_backup_status aws i log = (Return entry, log) /\
    healthy_or_warning entry = true.
Proof.
  intros [Hr [snapshots Hs]]. unfold instance_backup_status.
  destruct (retention i >? 0)%Z eqn:E.
  - unfold bind, call, ret. rewrite Hs. eexists. split; [reflexivity |].
    destruct snapshots; reflexivity.
  - rewrite Z.gtb_ltb in E. apply Z.ltb_ge in E. lia.
Qed.

Lemma not_backed_up_entry (aws : World) (i : DBInstance) (log : S3Log)
  (entry : dict) :
  ~ backed_up aws i ->
  instance_backup_status aws i log = (Return entry, log) ->
  healthy_or_warning entry = false.
Proof.
  intros Hn. unfold instance_backup_status.
  destruct (retention i >? 0)%Z eqn:E.
  - unfold bind, call, ret.
    destruct (describe_db_snapshots aws (DBInstanceIdentifier i))
      as [snapshots | e] eqn:Hs; [| discriminate].
    exfalso. apply Hn. split; [| now exists snapshots].
    rewrite Z.gtb_ltb in E. now apply Z.ltb_lt in E.
  - unfold ret. intro H. injection H as <-. reflexivity.
Qed.

Lemma collect_all_backed_up (aws : World) (l : list DBInstance)
  (log : S3Log) :
  (forall i, In i l -> backed_up aws i) ->
  exists entries,
    collect_backup_status aws l log = (Return entries, log) /\
    forallb healthy_or_warning entries = true.
Proof.
  induction l as [| i l IH]; intro H.
  - exists []. split; reflexivity.
  - destruct (backed_up_entry aws i log (H i (or_introl eq_refl)))
      as (entry & He & Hok).
    destruct IH as (entries & Hes & Hoks).
    { intros j Hj. apply H. now right. }
    exists (entry :: entries). split.
    + simpl. unfold bind at 1. rewrite He. unfold bind at 1. rewrite Hes.
      reflexivity.
    + simpl. now rewrite Hok, Hoks.
Qed.

Lemma collect_one_not_backed_up (aws : World) (l : list DBInstance)
  (i : DBInstance) (log : S3Log) (entries : list dict) :
  In i l -> ~ backed_up aws i ->
  collect_backup_status aws l log = (Return entries, log) ->
  forallb healthy_or_warning entries = false.
Proof.
  revert entries. induction l as [| j l IH]; intros entries Hin Hn;
    [destruct Hin |].
  simpl. unfold bind at 1.
  destruct (instance_backup_status_runs aws j log) as [[e Hj] | [entry Hj]];
    rewrite Hj; [discriminate |].
  unfold bind at 1.
  destruct (collect_backup_status_runs aws l log) as [[e Hl] | [rest Hl]];
    rewrite Hl; [discriminate |].
  unfold ret. intro H. injection H as <-. simpl.
  destruct Hin as [-> | Hin].
  - now rewrite (not_backed_up_entry aws i log entry Hn Hj).
  - rewrite (IH rest Hin Hn Hl). apply andb_false_r.
Qed.

(** X5: the verification step always returns, with status SUCCESS or
    FAILED and the request log as it was; the status is SUCCESS exactly
    when the instances could be listed and every managed one has a
    positive retention period and snapshots that could be listed, be
    there any snapshot or none. *)
Theorem verification_succeeds_iff_all_backed_up :
  forall env aws log,
    exists result,
      verify_rds_backups env aws log = (Return result, log) /\
      (dict_get "status" result = Some (JStr "SUCCESS") \/
       dict_get "status" result = Some (JStr "FAILED")) /\
      (dict_get "status" result = Some (JStr "SUCCESS") <->
       exists instances,
         describe_db_instances aws = Return instances /\
         forall i, In i instances ->
                   is_agentscan_instance env i = true ->
                   backed_up aws i).
Proof.
  intros env aws log.
  destruct (describe_db_instances aws) as [instances | e] eqn:Hd.
  - set (managed := filter (is_agentscan_instance env) instances).
    destruct (collect_backup_status_runs aws managed log)
      as [[e Hc] | [entries Hc]].
    + exists (failed_operation "rds_backup_verification" e).
      split; [| split].
      * unfold verify_rds_backups, try_except, verify_rds_backups_try,
               bind, call. rewrite Hd. fold managed. now rewrite Hc.
      * right. reflexivity.
      * split; [discriminate |].
        intros (instances' & Hi & Hall). injection Hi as <-.
        destruct (collect_all_backed_up aws managed log) as (es & Hes & _).
        { intros i Hi. apply filter_In in Hi. now apply Hall. }
        congruence.
    + eexists. split; [| split].
      * apply (verify_rds_backups_on env aws instances entries log Hd Hc).
      * simpl. destruct (forallb healthy_or_warning entries); auto.
      * simpl. destruct (forallb healthy_or_warning entries) eqn:F.
        -- split; [| reflexivity]. intros _. exists instances.
           split; [reflexivity |]. intros i Hin Hm.
           destruct (backed_up_dec aws i) as [Hb | Hb]; [exact Hb |].
           assert (Hi : In i managed) by (apply filter_In; now split).
           rewrite (collect_one_not_backed_up aws managed i log entries
                      Hi Hb Hc) in F. discriminate.
        -- split; [discriminate |].
           intros (instances' & Hi & Hall). injection Hi as <-.
           destruct (collect_all_backed_up aws managed log)
             as (es & Hes & Hok).
           { intros i Hi. apply filter_In in Hi. now apply Hall. }
           congruence.
  - exists (failed_operation "rds_backup_verification" e).
    split; [| split].
    + unfold verify_rds_backups, try_except, verify_rds_backups_try,
             bind, call. now rewrite Hd.
    + right. reflexivity.
    + split; [discriminate |]. intros (instances & Hi & _). discriminate.
Qed.

Lemma verification_succeeds_iff_all_backed_up_witness :
  exists result,
    verify_rds_backups Samples.prod
      (Samples.all_well [Samples.db_staging; Samples.db_main]) []
    = (Return result, []) /\
    dict_get "status" result = Some (JStr "SUCCESS").
Proof.
  destruct (verification_succeeds_iff_all_backed_up Samples.prod
              (Samples.all_well [Samples.db_staging; Samples.db_main]) [])
    as (result & Hrun & _ & Hiff).
  exists result. split; [exact Hrun |].
  apply Hiff. exists [Samples.db_staging; Samples.db_main].
  split; [reflexivity |].
  intros i [<- | [<- | []]] H.
  - discriminate.
  - split; [reflexivity |]. eexists. reflexivity.
Defined.

Lemma collect_backup_status_entries (aws : World) (l : list DBInstance) :
  forall entries log log',
    collect_backup_status aws l log = (Return entries, log') ->
    map (dict_get "instance_id") entries =
    map (fun i => Some (JStr (DBInstanceIdentifier i))) l /\
    map (dict_get "backup_retention_days") entries =
    map (fun i => Some (JInt (retention i))) l.
Proof.
  induction l as [| i l IH]; intros entries log log'; simpl.
  - unfold ret. intro H. injection H as <- _. split; reflexivity.
  - unfold bind at 1.
    destruct (instance_backup_status aws i log) as [[entry | e] log1] eqn:Hi;
      [| discriminate].
    unfold bind at 1.
    destruct (collect_backup_status aws l log1) as [[rest | e] log2] eqn:Hl;
      [| discriminate].
    unfold ret. intro H. injection H as <- _.
    destruct (IH rest log1 log2 Hl) as [Hids Hdays].
    simpl. rewrite Hids, Hdays.
    unfold instance_backup_status in Hi.
    destruct (retention i >? 0)%Z.
    + unfold bind, call, ret in Hi.
      destruct (describe_db_snapshots aws (DBInstanceIdentifier i));
        [| discriminate].
      injection Hi as <- _. split; reflexivity.
    + unfold ret in Hi. injection Hi as <- _. split; reflexivity.
Qed.

(** X6: when the verification step ends without an error, its
    [instances] list holds one entry per managed instance, in the order
    of [describe_db_instances], each with the identifier and the
    retention period of its instance; the other instances are left
    out. *)
Theorem verification_reports_managed_instances :
  forall env aws log instances result,
    describe_db_instances aws = Return instances ->
    verify_rds_backups env aws log = (Return result, log) ->
    dict_get "error" result = None ->
    exists entries,
      dict_get "instances" result = Some (JList (map JDict entries)) /\
      map (dict_get "instance_id") entries =
      map (fun i => Some (JStr (DBInstanceIdentifier i)))
          (filter (is_agentscan_instance env) instances) /\
      map (dict_get "backup_retention_days") entries =
      map (fun i => Some (JInt (retention i)))
          (filter (is_agentscan_instance env) instances).
Proof.
  intros env aws log instances result Hd Hrun Hne.
  destruct (collect_backup_status_runs aws
              (filter (is_agentscan_instance env) instances) log)
    as [[e Hc] | [entries Hc]].
  - unfold verify_rds_backups, try_except, verify_rds_backups_try,
           bind, call in Hrun. rewrite Hd, Hc in Hrun.
    unfold ret in Hrun. injection Hrun as <-. discriminate.
  - rewrite (verify_rds_backups_on env aws instances entries log Hd Hc)
      in Hrun.
    injection Hrun as <-. exists entries. split; [reflexivity |].
    exact (collect_backup_status_entries aws _ entries log log Hc).
Qed.

Lemma verification_reports_managed_instances_witness :
  exists entries,
    map (dict_get "instance_id") entries =
    [Some (JStr "agentscan-prod-db"); Some (JStr "agentscan-prod-replica")] /\
    map (dict_get "backup_retention_days") entries =
    [Some (JInt 7); Some (JInt 0)].
Proof.
  destruct (verification_reports_managed_instances Samples.prod
              (Samples.all_well
                 [Samples.db_staging; Samples.db_main; Samples.db_replica])
              []
              [Samples.db_staging; Samples.db_main; Samples.db_replica]
              [("operation", JStr "rds_backup_verification");
               ("status", JStr "FAILED");
               ("instances",
                JList [JDict [("instance_id", JStr "agentscan-prod-db");
                              ("backup_retention_days", JInt 7);
                              ("recent_snapshots", JInt 1);
                              ("status", JStr "HEALTHY")];
                       JDict [("instance_id", JStr "agentscan-prod-replica");
                              ("backup_retention_days", JInt 0);
                              ("status", JStr "DISABLED")]])]
              eq_refl eq_refl eq_refl)
    as (entries & _ & Hids & Hdays).
  exists entries. split; assumption.
Defined.

(* ------------------------------------------------------------------ *)
(** ** Further properties: what a run sends to S3 *)

Lemma not_active_iff (status : string) :
  negb (status =? "ACTIVE")%string = true <-> status <> "ACTIVE".
Proof.
  rewrite negb_true_iff. split.
  - intros H E. apply String.eqb_neq in H. contradiction.
  - intro H. now apply String.eqb_neq.
Qed.

(** X7: the cluster step writes to S3 only when the cluster is ACTIVE.
    When [describe_cluster] raises, or gives another status, the step
    sends no request: it returns FAILED with the error, or SKIPPED with a
    message that quotes the status.  When the cluster is ACTIVE it sends
    exactly one request, the metadata, and returns SUCCESS or FAILED as
    S3 accepts or refuses it. *)
Theorem cluster_step_writes_only_when_active :
  forall env aws clock log,
    (forall e,
        describe_cluster aws (CLUSTER_NAME env) = Raise e ->
        backup_kubernetes_resources env aws clock log =
        (Return (failed_operation "kubernetes_backup" e), log)) /\
    (forall status,
        describe_cluster aws (CLUSTER_NAME env) = Return status ->
        status <> "ACTIVE" ->
        backup_kubernetes_resources env aws clock log =
        (Return [("operation", JStr "kubernetes_backup");
                 ("status", JStr "SKIPPED");
                 ("message", JStr ("Cluster status is " ++ status ++
                                   ", skipping backup"))], log)) /\
    (describe_cluster aws (CLUSTER_NAME env) = Return "ACTIVE" ->
     exists result,
       backup_kubernetes_resources env aws clock log =
       (Return result, (log ++ [kubernetes_request env clock])%list) /\
       match s3_put_object aws (kubernetes_request env clock) with
       | Return _ => dict_get "status" result = Some (JStr "SUCCESS")
       | Raise e => result = failed_operation "kubernetes_backup" e
       end).
Proof.
  intros env aws clock log.
  unfold backup_kubernetes_resources, try_except,
         backup_kubernetes_resources_try, bind, call, put_object, ret.
  split; [| split].
  - intros e H. now rewrite H.
  - intros status H Hne. rewrite H.
    now rewrite (proj2 (not_active_iff status) Hne).
  - intro H. rewrite H. simpl negb. cbv iota.
    fold (kubernetes_request env clock).
    destruct (s3_put_object aws (kubernetes_request env clock));
      eexists; split; reflexivity.
Qed.

Lemma cluster_step_writes_only_when_active_witness :
  backup_kubernetes_resources Samples.prod
    {| describe_cluster := fun _ => Return "UPDATING";
       describe_db_instances := Return [];
       describe_db_snapshots := fun _ => Return [];
       s3_put_object := fun _ => Return tt |}
    Samples.at_noon [] =
  (Return [("operation", JStr "kubernetes_backup");
           ("status", JStr "SKIPPED");
           ("message", JStr "Cluster status is UPDATING, skipping backup")],
   []).
Proof.
  apply (proj1 (proj2 (cluster_step_writes_only_when_active Samples.prod
           {| describe_cluster := fun _ => Return "UPDATING";
              describe_db_instances := Return [];
              describe_db_snapshots := fun _ => Return [];
              s3_put_object := fun _ => Return tt |}
           Samples.at_noon [])) "UPDATING").
  - reflexivity.
  - discriminate.
Defined.

Lemma append_assoc (a b c : string) : (a ++ b) ++ c = a ++ (b ++ c).
Proof.
  induction a as [| x a IH]; simpl; [reflexivity | now rewrite IH].
Qed.

Lemma append_cancel_l (a x y : string) : a ++ x = a ++ y -> x = y.
Proof.
  induction a as [| c a IH]; simpl; intro H; [exact H |].
  injection H as H. exact (IH H).
Qed.

Lemma kubernetes_key_not_archive (env : Env) (clock : Clock) :
  Key (kubernetes_request env clock) <> archive_key env clock.
Proof.
  unfold kubernetes_request, archive_key. cbn [Key]. intro H.
  do 4 apply append_cancel_l in H. discriminate.
Qed.

Lemma manifest_key_not_archive (env : Env) (clock : Clock) :
  Key (manifest_request env clock) <> archive_key env clock.
Proof.
  unfold manifest_request, archive_key. cbn [Key]. intro H.
  discriminate.
Qed.

Lemma metadata_key_not_archive (env : Env) (clock : Clock)
  (r : BackupResults) :
  Key (metadata_request env clock r) <> archive_key env clock.
Proof.
  unfold metadata_request, archive_key. cbn [Key]. intro H.
  discriminate.
Qed.

Lemma kubernetes_request_addressed (env : Env) (clock : Clock) :
  well_addressed env (kubernetes_request env clock).
Proof.
  split; [reflexivity |]. split; [reflexivity |].
  exists ("k8s-backups/" ++ ENVIRONMENT env ++ "/"),
         (strftime (now_kubernetes clock) ++ "/metadata.json").
  split; [simpl; auto |].
  unfold kubernetes_request. cbn [Key]. now rewrite !append_assoc.
Qed.

Lemma manifest_request_addressed (env : Env) (clock : Clock) :
  well_addressed env (manifest_request env clock).
Proof.
  split; [reflexivity |]. split; [reflexivity |].
  exists ("app-backups/" ++ ENVIRONMENT env ++ "/"),
         (strftime (now_application clock) ++ "/manifest.json").
  split; [simpl; auto |].
  unfold manifest_request. cbn [Key]. now rewrite !append_assoc.
Qed.

Lemma metadata_request_addressed (env : Env) (clock : Clock)
  (r : BackupResults) :
  well_addressed env (metadata_request env clock r).
Proof.
  split; [reflexivity |]. split; [reflexivity |].
  exists ("backup-reports/" ++ ENVIRONMENT env ++ "/"),
         (strftime (now_metadata clock) ++ "/backup-report.json").
  split; [simpl; auto |].
  unfold metadata_request. cbn [Key]. now rewrite !append_assoc.
Qed.

(** The cluster step in one line: what it sends, and what it returns. *)
Lemma backup_kubernetes_resources_run (env : Env) (aws : World)
  (clock : Clock) (log : S3Log) :
  exists a,
    backup_kubernetes_resources env aws clock log =
    (Return a,
     (log ++ if cluster_is_active env aws
             then [kubernetes_request env clock] else [])%list) /\
    is_warning a = false /\
    (dict_get "backup_location" a
     = Some (JStr ("s3://" ++ S3_BUCKET env ++ "/" ++ archive_key env clock))
     \/ dict_get "backup_location" a = None).
Proof.
  unfold backup_kubernetes_resources, try_except,
         backup_kubernetes_resources_try, bind, call, put_object, ret,
         cluster_is_active.
  destruct (describe_cluster aws (CLUSTER_NAME env)) as [status | e].
  - destruct (status =? "ACTIVE")%string; simpl negb; cbv iota.
    + fold (kubernetes_request env clock).
      destruct (s3_put_object aws (kubernetes_request env clock));
        eexists; (split; [reflexivity |]); split; try reflexivity.
      * left. reflexivity.
      * right. reflexivity.
    + eexists. rewrite app_nil_r. split; [reflexivity |].
      split; [reflexivity | right; reflexivity].
  - eexists. rewrite app_nil_r. split; [reflexivity |].
    split; [reflexivity | right; reflexivity].
Qed.

Lemma verify_rds_backups_run (env : Env) (aws : World) (log : S3Log) :
  exists b,
    verify_rds_backups env aws log = (Return b, log) /\
    is_warning b = false.
Proof.
  destruct (verify_rds_backups_answer env aws) as (b & Hb).
  exists b. split; [apply Hb |].
  specialize (Hb []). revert Hb.
  unfold verify_rds_backups, try_except, verify_rds_backups_try,
         bind, call, ret.
  destruct (describe_db_instances aws) as [instances | e].
  - destruct (collect_backup_status aws _ []) as [[entries | e] log1].
    + intro H. injection H as <- _.
      destruct (forallb healthy_or_warning entries); reflexivity.
    + intro H. injection H as <- _. reflexivity.
  - intro H. injection H as <-. reflexivity.
Qed.

Lemma backup_application_data_run (env : Env) (aws : World)
  (clock : Clock) (log : S3Log) :
  exists c,
    backup_application_data env aws clock log =
    (Return c, (log ++ [manifest_request env clock])%list) /\
    is_warning c = false.
Proof.
  unfold backup_application_data, try_except,
         backup_application_data_try, bind, put_object, ret.
  fold (manifest_request env clock).
  destruct (s3_put_object aws (manifest_request env clock));
    eexists; split; reflexivity.
Qed.

(** A run of [handler], step by step. *)
Lemma handler_run (env : Env) (aws : World) (clock : Clock) (log : S3Log) :
  exists a b c d,
    completes env clock
      (backup_kubernetes_resources env aws clock)
      (verify_rds_backups env aws)
      (backup_application_data env aws clock)
      (upload_backup_metadata env aws clock)
      log [a; b; c; d]
      (log ++ requests_of_run env aws clock a b c)%list /\
    existsb is_warning [a; b; c; d] = false /\
    (dict_get "backup_location" a
     = Some (JStr ("s3://" ++ S3_BUCKET env ++ "/" ++ archive_key env clock))
     \/ dict_get "backup_location" a = None).
Proof.
  destruct (backup_kubernetes_resources_run env aws clock log)
    as (a & Ha & Wa & La).
  set (l1 := (log ++ if cluster_is_active env aws
                     then [kubernetes_request env clock] else [])%list) in *.
  destruct (verify_rds_backups_run env aws l1) as (b & Hb & Wb).
  destruct (backup_application_data_run env aws clock l1) as (c & Hc & Wc).
  pose proof (upload_backup_metadata_run env aws clock
                (operations_so_far env clock [a; b; c])
                (l1 ++ [manifest_request env clock])%list) as Hd.
  eexists a, b, c, _. split; [| split].
  - replace (log ++ requests_of_run env aws clock a b c)%list
      with ((l1 ++ [manifest_request env clock]) ++
            [metadata_request env clock
               (operations_so_far env clock [a; b; c])])%list.
    + exact (completes_all env clock _ _ _ _ log a b c _ _ _ _ _
               Ha Hb Hc Hd).
    + unfold l1, requests_of_run. rewrite <- !app_assoc. reflexivity.
  - simpl. rewrite Wa, Wb, Wc. simpl.
    destruct (s3_put_object aws _); reflexivity.
  - exact La.
Qed.

(** X8: a run of [handler] with the steps of the module never ends with
    [overall_status] WARNING: no step returns the status WARNING, the
    warnings of single instances stay inside the verification result, so
    the report ends SUCCESS or FAILED. *)
Theorem overall_status_is_never_warning :
  forall env aws clock event context log,
    exists response log',
      handler env aws clock event context log = (Return response, log') /\
      (report_field "overall_status" response = Some (JStr "SUCCESS") \/
       report_field "overall_status" response = Some (JStr "FAILED")).
Proof.
  intros env aws clock event context log.
  destruct (handler_run env aws clock log)
    as (a & b & c & d & Hrun & Hw & _).
  eexists _, _. split.
  - unfold handler. apply handler_with_completes. exact Hrun.
  - unfold report_field, report_of, completed. simpl.
    rewrite check_backup_health_cases.
    change (backup_operations (operations_so_far env clock [a; b; c; d]))
      with [a; b; c; d].
    rewrite Hw. destruct (existsb is_failed [a; b; c; d]); auto.
Qed.

(** X9: the requests of a run.  [handler] adds to the log of S3 requests,
    in this order, the cluster metadata if the cluster is ACTIVE, the
    application manifest, and the report: two or three requests, whatever
    fails on the way.  Each goes to the configured bucket, is typed
    [application/json], and has its key under [k8s-backups/],
    [app-backups/] or [backup-reports/] followed by the environment
    name. *)
Theorem run_sends_two_or_three_requests :
  forall env aws clock event context log,
    exists response a b c,
      handler env aws clock event context log =
      (Return response, (log ++ requests_of_run env aws clock a b c)%list) /\
      Forall (well_addressed env) (requests_of_run env aws clock a b c) /\
      length (requests_of_run env aws clock a b c) =
      (if cluster_is_active env aws then 3 else 2).
Proof.
  intros env aws clock event context log.
  destruct (handler_run env aws clock log)
    as (a & b & c & d & Hrun & _ & _).
  eexists _, a, b, c. split; [| split].
  - unfold handler. apply handler_with_completes. exact Hrun.
  - unfold requests_of_run. apply Forall_app. split.
    + destruct (cluster_is_active env aws); constructor;
        [apply kubernetes_request_addressed | constructor].
    + repeat constructor;
        [apply manifest_request_addressed | apply metadata_request_addressed].
  - unfold requests_of_run.
    destruct (cluster_is_active env aws); reflexivity.
Qed.

(** X10: the archive that the cluster step names under [backup_location]
    is never written.  Whenever the first result of a run has a
    [backup_location], it is the key [cluster-backup.tar.gz] in the
    bucket, and no request of the run has this key. *)
Theorem reported_archive_is_never_written :
  forall env aws clock event context log,
    exists a b c d,
      handler env aws clock event context log =
      (Return {| statusCode := 200;
                 body := Dumps None
                           (results_json
                              (completed env clock [a; b; c; d])) |},
       (log ++ requests_of_run env aws clock a b c)%list) /\
      (dict_get "backup_location" a
       = Some (JStr ("s3://" ++ S3_BUCKET env ++ "/" ++
                     archive_key env clock))
       \/ dict_get "backup_location" a = None) /\
      Forall (fun request => Key request <> archive_key env clock)
             (requests_of_run env aws clock a b c).
Proof.
  intros env aws clock event context log.
  destruct (handler_run env aws clock log)
    as (a & b & c & d & Hrun & _ & La).
  exists a, b, c, d. split; [| split].
  - unfold handler. apply handler_with_completes. exact Hrun.
  - exact La.
  - unfold requests_of_run. apply Forall_app. split.
    + destruct (cluster_is_active env aws); constructor;
        [apply kubernetes_key_not_archive | constructor].
    + repeat constructor;
        [apply manifest_key_not_archive | apply metadata_key_not_archive].
Qed.

(* ------------------------------------------------------------------ *)
(** ** Further properties: the report that is returned *)

(** X11: the shape of the report, whatever the four steps return or
    raise.  Every response of [handler] carries a report that opens with
    the time of the start of the run, the environment and the cluster
    name.  With status code 200 it holds four results and
    [overall_status], and no [error]; with status code 500 it holds at
    most four results, then [error], then [overall_status], and it holds
    four only when every step returned and the health evaluation raised
    on a result that is not a dictionary. *)
Theorem report_shape_follows_status_code :
  forall env clock k8s rds app upload event context log response log',
    handler_bound env clock k8s rds app upload event context log
    = (Ok response, log') ->
    exists operations,
      report_field "timestamp" response
      = Some (JStr (isoformat (now_handler clock))) /\
      report_field "environment" response = Some (JStr (ENVIRONMENT env)) /\
      report_field "cluster_name" response
      = Some (JStr (CLUSTER_NAME env)) /\
      report_field "backup_operations" response = Some (JList operations) /\
      ((statusCode response = 200%Z /\
        length operations = 4 /\
        keys_of (report_of response) =
        ["timestamp"; "environment"; "cluster_name"; "backup_operations";
         "overall_status"]) \/
       (statusCode response = 500%Z /\
        length operations <= 4 /\
        keys_of (report_of response) =
        ["timestamp"; "environment"; "cluster_name"; "backup_operations";
         "error"; "overall_status"] /\
        (length operations = 4 ->
         exists ops e,
           steps_outcome env clock k8s rds app upload log
           = (ops, None, log') /\
           py_check_backup_health (py_report env clock ops [])
           = Throw (AnException e)))).
Proof.
  intros env clock k8s rds app upload event context log response log'.
  rewrite handler_bound_eq.
  destruct (steps_outcome env clock k8s rds app upload log)
    as [[ops stop] l] eqn:Hs.
  destruct (steps_outcome_length env clock k8s rds app upload log
              ops stop l Hs) as [Hle Hfour].
  destruct stop as [[e | c] |].
  - rewrite except_answer_cases.
    destruct (all_to_json ops) as [js | y] eqn:J; [| discriminate].
    intro H. injection H as <- <-.
    pose proof (all_to_json_length ops js J) as Hlen.
    exists js. repeat split. right. split; [reflexivity |].
    split; [lia |]. split; [reflexivity |].
    intro H4. rewrite Hlen in H4. apply Hfour in H4. discriminate.
  - discriminate.
  - destruct (py_check_backup_health (py_report env clock ops []))
      as [health | [e | c]] eqn:C.
    + rewrite py_dumps_cases.
      destruct (all_to_json ops) as [js | [e | c]] eqn:J.
      * intro H. injection H as <- <-.
        pose proof (all_to_json_length ops js J) as Hlen.
        exists js. repeat split. left. split; [reflexivity |].
        split; [| reflexivity].
        rewrite Hlen. now apply Hfour.
      * rewrite except_answer_cases, J. discriminate.
      * discriminate.
    + rewrite except_answer_cases.
      destruct (all_to_json ops) as [js | y] eqn:J; [| discriminate].
      intro H. injection H as <- <-.
      pose proof (all_to_json_length ops js J) as Hlen.
      exists js. repeat split. right. split; [reflexivity |].
      split; [lia |]. split; [reflexivity |].
      intros _. now exists ops, e.
    + discriminate.
Qed.

Lemma report_shape_follows_status_code_witness :
  exists operations,
    report_field "backup_operations"
      {| statusCode := 500;
         body := Dumps None
           (JDict [("timestamp", JStr "2025-03-09T12:00:07+00:00");
                   ("environment", JStr "prod");
                   ("cluster_name", JStr "main");
                   ("backup_operations",
                    JList [JDict [("operation", JStr "kubernetes_backup");
                                  ("status", JStr "SUCCESS")];
                           JNone;
                           JDict [("operation",
                                   JStr "application_data_backup");
                                  ("status", JStr "SUCCESS")];
                           JDict [("operation", JStr "metadata_upload");
                                  ("status", JStr "SUCCESS")]]);
                   ("error",
                    JStr "'NoneType' object has no attribute 'get'");
                   ("overall_status", JStr "FAILED")]) |}
    = Some (JList operations) /\
    length operations = 4.
Proof.
  destruct (report_shape_follows_status_code Samples.prod Samples.at_noon
              (Samples.bound_returns (Samples.fine "kubernetes_backup"))
              (Samples.bound_returns (Serialisable JNone))
              (Samples.bound_returns (Samples.fine "application_data_backup"))
              (fun _ => Samples.bound_returns (Samples.fine "metadata_upload"))
              JNone JNone [] _ [] eq_refl)
    as (operations & _ & _ & _ & Hops & _).
  exists operations. split; [exact Hops |].
  simpl in Hops. injection Hops as <-. reflexivity.
Defined.

(** X12: when every client answers and every managed instance is backed
    up, the run ends SUCCESS with status code 200, whatever the status of
    the cluster: a cluster that is not ACTIVE gives a SKIPPED result,
    which does not weigh on the health, and an instance without any
    snapshot gives a warning that stays inside the verification
    result. *)
Theorem run_succeeds_when_every_client_answers :
  forall env aws clock event context log status instances,
    describe_cluster aws (CLUSTER_NAME env) = Return status ->
    describe_db_instances aws = Return instances ->
    (forall i, In i instances ->
               is_agentscan_instance env i = true -> backed_up aws i) ->
    (forall request, s3_put_object aws request = Return tt) ->
    exists response log',
      handler env aws clock event context log = (Return response, log') /\
      statusCode response = 200%Z /\
      report_field "overall_status" response = Some (JStr "SUCCESS").
Proof.
  intros env aws clock event context log status instances Hc Hd Hall Hs.
  destruct (handler_run env aws clock log)
    as (a & b & c & d & Hrun & Hw & _).
  eexists _, _. split; [| split].
  - unfold handler. apply handler_with_completes. exact Hrun.
  - reflexivity.
  - inversion Hrun as [a' b' c' d' l1 l2 l3 l4 H1 H2 H3 H4 Eops El]. subst.
    assert (Fa : is_failed a = false).
    { revert H1.
      unfold backup_kubernetes_resources, try_except,
             backup_kubernetes_resources_try, bind, call, put_object, ret.
      rewrite Hc. destruct (negb (status =? "ACTIVE")%string).
      - intro H. injection H as <- _. reflexivity.
      - rewrite Hs. intro H. injection H as <- _. reflexivity. }
    assert (Fb : is_failed b = false).
    { destruct (collect_all_backed_up aws
                  (filter (is_agentscan_instance env) instances) l1)
        as (entries & He & Hok).
      { intros i Hi. apply filter_In in Hi. now apply Hall. }
      rewrite (verify_rds_backups_on env aws instances entries l1 Hd He)
        in H2.
      injection H2 as <- _. rewrite Hok. reflexivity. }
    assert (Fc : is_failed c = false).
    { revert H3.
      unfold backup_application_data, try_except,
             backup_application_data_try, bind, put_object, ret.
      rewrite Hs. intro H. injection H as <- _. reflexivity. }
    assert (Fd : is_failed d = false).
    { rewrite upload_backup_metadata_run, Hs in H4.
      injection H4 as <- _. reflexivity. }
    unfold report_field, report_of, completed. simpl.
    rewrite check_backup_health_cases.
    change (backup_operations (operations_so_far env clock [a; b; c; d]))
      with [a; b; c; d].
    rewrite Hw. simpl. now rewrite Fa, Fb, Fc, Fd.
Qed.

Lemma run_succeeds_when_every_client_answers_witness :
  exists response log',
    handler Samples.prod
      {| describe_cluster := fun _ => Return "UPDATING";
         describe_db_instances := Return [Samples.db_staging; Samples.db_main];
         describe_db_snapshots := fun _ => Return [];
         s3_put_object := fun _ => Return tt |}
      Samples.at_noon JNone JNone [] = (Return response, log') /\
    statusCode response = 200%Z /\
    report_field "overall_status" response = Some (JStr "SUCCESS").
Proof.
  apply (run_succeeds_when_every_client_answers Samples.prod
           {| describe_cluster := fun _ => Return "UPDATING";
              describe_db_instances :=
                Return [Samples.db_staging; Samples.db_main];
              describe_db_snapshots := fun _ => Return [];
              s3_put_object := fun _ => Return tt |}
           Samples.at_noon JNone JNone [] "UPDATING"
           [Samples.db_staging; Samples.db_main]).
  - reflexivity.
  - reflexivity.
  - intros i [<- | [<- | []]] H.
    + discriminate.
    + split; [reflexivity |]. exists []. reflexivity.
  - intro request. reflexivity.
Defined.

(* ------------------------------------------------------------------ *)
(** ** Further properties: time stamps in keys *)

Lemma length_append (a b : string) :
  String.length (a ++ b) = String.length a + String.length b.
Proof.
  induction a as [| c a IH]; simpl; [reflexivity | now rewrite IH].
Qed.

Lemma append_split (a a' b b' : string) :
  String.length a = String.length a' ->
  a ++ b = a' ++ b' -> a = a' /\ b = b'.
Proof.
  revert a'. induction a as [| c a IH]; intros [| c' a'] Hlen H;
    try discriminate.
  - split; [reflexivity | exact H].
  - simpl in Hlen, H. injection Hlen as Hlen. injection H as -> H.
    destruct (IH a' Hlen H) as [-> ->]. split; reflexivity.
Qed.

Lemma zfill_length (width n : nat) : String.length (zfill width n) = width.
Proof.
  revert n. induction width as [| w IH]; intro n; simpl; [reflexivity |].
  rewrite length_append, IH. simpl. lia.
Qed.

Lemma digit_inj (n m : nat) : digit n = digit m -> n mod 10 = m mod 10.
Proof.
  unfold digit. intro H. apply (f_equal nat_of_ascii) in H.
  pose proof (Nat.mod_upper_bound n 10 ltac:(discriminate)) as Hn.
  pose proof (Nat.mod_upper_bound m 10 ltac:(discriminate)) as Hm.
  rewrite !nat_ascii_embedding in H by lia. lia.
Qed.

Lemma zfill_inj (width n m : nat) :
  n < 10 ^ width -> m < 10 ^ width ->
  zfill width n = zfill width m -> n = m.
Proof.
  revert n m. induction width as [| w IH]; intros n m Hn Hm H.
  - simpl in Hn, Hm. lia.
  - simpl zfill in H.
    apply append_split in H; [| now rewrite !zfill_length].
    destruct H as [Hhigh Hlow]. injection Hlow as Hlow.
    rewrite Nat.pow_succ_r' in Hn, Hm.
    assert (Hq : n / 10 = m / 10).
    { apply IH; [| | exact Hhigh];
        apply Nat.Div0.div_lt_upper_bound; assumption. }
    assert (Hr : n mod 10 = m mod 10).
    { apply digit_inj. now rewrite Hlow. }
    rewrite (Nat.div_mod_eq n 10), (Nat.div_mod_eq m 10). lia.
Qed.

Lemma decimal_digits_four (fuel n : nat) :
  4 <= fuel -> 1000 <= n -> n < 10 ^ 4 ->
  decimal_digits fuel n = zfill 4 n.
Proof.
  intros Hf Hlow Hhigh.
  destruct fuel as [| [| [| [| fuel]]]]; try lia.
  assert (H1 : Nat.ltb n 10 = false) by (apply Nat.ltb_ge; lia).
  assert (H2 : Nat.ltb (n / 10) 10 = false).
  { apply Nat.ltb_ge. apply Nat.div_le_lower_bound; lia. }
  assert (H3 : Nat.ltb (n / 10 / 10) 10 = false).
  { apply Nat.ltb_ge. apply Nat.div_le_lower_bound; [lia |].
    apply Nat.div_le_lower_bound; lia. }
  assert (H4 : Nat.ltb (n / 10 / 10 / 10) 10 = true).
  { apply Nat.ltb_lt.
    rewrite !Nat.pow_succ_r', Nat.pow_0_r in Hhigh.
    do 3 (apply Nat.Div0.div_lt_upper_bound). lia. }
  cbn [decimal_digits zfill]. rewrite H1, H2, H3, H4. reflexivity.
Qed.

Lemma decimal_four (n : nat) :
  1000 <= n -> n < 10 ^ 4 -> decimal n = zfill 4 n.
Proof.
  intros Hlow Hhigh. apply decimal_digits_four; [lia | exact Hlow | exact Hhigh].
Qed.

Lemma strftime_length (t : datetime) :
  fits_widths t -> String.length (strftime t) = 15.
Proof.
  intros (Hlow & Hy & _). unfold strftime.
  rewrite (decimal_four _ Hlow Hy).
  rewrite !length_append, !zfill_length. reflexivity.
Qed.

Lemma strftime_inj (t u : datetime) :
  fits_widths t -> fits_widths u ->
  strftime t = strftime u -> same_second t u.
Proof.
  intros (Hl & Hy & Hmo & Hd & Hh & Hmi & Hs)
         (Hl' & Hy' & Hmo' & Hd' & Hh' & Hmi' & Hs').
  unfold strftime.
  rewrite (decimal_four _ Hl Hy), (decimal_four _ Hl' Hy'). intro H.
  apply append_split in H; [| now rewrite !zfill_length].
  destruct H as [Ey H].
  apply append_split in H; [| now rewrite !zfill_length].
  destruct H as [Emo H].
  apply append_split in H; [| now rewrite !zfill_length].
  destruct H as [Ed H].
  apply append_cancel_l in H.
  apply append_split in H; [| now rewrite !zfill_length].
  destruct H as [Eh H].
  apply append_split in H; [| now rewrite !zfill_length].
  destruct H as [Emi Es].
  repeat split.
  - apply (zfill_inj 4); assumption.
  - apply (zfill_inj 2); assumption.
  - apply (zfill_inj 2); assumption.
  - apply (zfill_inj 2); assumption.
  - apply (zfill_inj 2); assumption.
  - apply (zfill_inj 2); assumption.
Qed.

(** X13: the key of the report is made of the environment and of the
    time of the upload, to the second.  For instants whose year has four
    digits, two uploads for one environment use the same key, so that the
    later report replaces the earlier one, exactly when they fall in the
    same second, whatever the reports hold. *)
Theorem report_keys_collide_iff_same_second :
  forall env clock clock' r r',
    fits_widths (now_metadata clock) ->
    fits_widths (now_metadata clock') ->
    (Key (metadata_request env clock r) = Key (metadata_request env clock' r')
     <-> same_second (now_metadata clock) (now_metadata clock')).
Proof.
  intros env clock clock' r r' Hf Hf'.
  unfold metadata_request. cbn [Key]. split.
  - intro H. do 3 apply append_cancel_l in H.
    apply append_split in H; [| now rewrite !strftime_length].
    apply (strftime_inj _ _ Hf Hf'). exact (proj1 H).
  - intros (Ey & Emo & Ed & Eh & Emi & Es).
    unfold strftime. now rewrite Ey, Emo, Ed, Eh, Emi, Es.
Qed.

Lemma report_keys_collide_iff_same_second_witness :
  Key (metadata_request Samples.prod Samples.at_noon Samples.empty_report) =
  Key (metadata_request Samples.prod Samples.next_day Samples.empty_report)
  <-> same_second Samples.noon Samples.later.
Proof.
  apply (report_keys_collide_iff_same_second Samples.prod
           Samples.at_noon Samples.next_day
           Samples.empty_report Samples.empty_report).
  - split; [apply Nat.leb_le; reflexivity |].
    repeat split; apply Nat.ltb_lt; reflexivity.
  - split; [apply Nat.leb_le; reflexivity |].
    repeat split; apply Nat.ltb_lt; reflexivity.
Defined.

(* ------------------------------------------------------------------ *)
(** ** Further properties: a snapshot listing that fails *)

Lemma instance_backup_status_raises (aws : World) (i : DBInstance)
  (e : exn) (log : S3Log) :
  (0 < retention i)%Z ->
  describe_db_snapshots aws (DBInstanceIdentifier i) = Raise e ->
  instance_backup_status aws i log = (Raise e, log).
Proof.
  intros Hr Hs. unfold instance_backup_status.
  destruct (retention i >? 0)%Z eqn:E.
  - unfold bind, call. now rewrite Hs.
  - rewrite Z.gtb_ltb in E. apply Z.ltb_ge in E. lia.
Qed.

Lemma collect_backup_status_raises (aws : World) (l : list DBInstance)
  (i : DBInstance) (e : exn) (log : S3Log) :
  In i l ->
  (0 < retention i)%Z ->
  describe_db_snapshots aws (DBInstanceIdentifier i) = Raise e ->
  exists e', collect_backup_status aws l log = (Raise e', log).
Proof.
  intros Hin Hr Hs. induction l as [| j l IH]; [destruct Hin |].
  simpl. unfold bind at 1.
  destruct (instance_backup_status_runs aws j log) as [[e' Hj] | [entry Hj]];
    rewrite Hj; [now exists e' |].
  destruct Hin as [-> | Hin].
  - rewrite (instance_backup_status_raises aws i e log Hr Hs) in Hj.
    discriminate.
  - destruct (IH Hin) as [e' He']. exists e'.
    unfold bind at 1. now rewrite He'.
Qed.

(** X14: one managed instance whose snapshots cannot be listed hides the
    state of all of them.  When automated backups are on for it and
    [describe_db_snapshots] raises, the verification step returns the
    FAILED result of its [except] block, which carries an error and no
    [instances] list, whatever the other instances are. *)
Theorem unlistable_instance_hides_all_statuses :
  forall env aws log instances i e,
    describe_db_instances aws = Return instances ->
    In i instances ->
    is_agentscan_instance env i = true ->
    (0 < retention i)%Z ->
    describe_db_snapshots aws (DBInstanceIdentifier i) = Raise e ->
    exists e',
      verify_rds_backups env aws log =
      (Return (failed_operation "rds_backup_verification" e'), log) /\
      dict_get "instances" (failed_operation "rds_backup_verification" e')
      = None.
Proof.
  intros env aws log instances i e Hd Hin Hm Hr Hs.
  destruct (collect_backup_status_raises aws
              (filter (is_agentscan_instance env) instances) i e log)
    as [e' He']; try assumption.
  { apply filter_In. now split. }
  exists e'. split; [| reflexivity].
  unfold verify_rds_backups, try_except, verify_rds_backups_try, bind, call.
  now rewrite Hd, He'.
Qed.

Lemma unlistable_instance_hides_all_statuses_witness :
  exists e',
    verify_rds_backups Samples.prod
      {| describe_cluster := fun _ => Return "ACTIVE";
         describe_db_instances := Return [Samples.db_replica; Samples.db_main];
         describe_db_snapshots := fun _ => Raise (Exception "Throttling");
         s3_put_object := fun _ => Return tt |} [] =
    (Return (failed_operation "rds_backup_verification" e'), []) /\
    dict_get "instances" (failed_operation "rds_backup_verification" e')
    = None.
Proof.
  apply (unlistable_instance_hides_all_statuses Samples.prod
           {| describe_cluster := fun _ => Return "ACTIVE";
              describe_db_instances :=
                Return [Samples.db_replica; Samples.db_main];
              describe_db_snapshots := fun _ => Raise (Exception "Throttling");
              s3_put_object := fun _ => Return tt |}
           [] [Samples.db_replica; Samples.db_main] Samples.db_main
           (Exception "Throttling")).
  - reflexivity.
  - simpl. auto.
  - reflexivity.
  - reflexivity.
  - reflexivity.
Defined.
